(** * maldi-learn: the DRIAMS explorer and loader ([maldi_learn/driams.py])

    A shallow embedding of the discovery, validation and loading code of
    [driams.py], followed by the properties stated about it.

    Conventions of the embedding.
    - The file system is a tree of directories and files; a path is the list
      of its components, and [os.path.join] of plain names appends components.
      Site, year and code names are taken to be plain components.
    - A file carries what the two [pandas.read_csv] calls of the module make
      of its text: the comma-separated reading (header and token rows) and
      the space-separated numeric reading used for spectra.  Either may fail.
    - A [DataFrame] is a header and a list of rows; a row shorter than the
      header reads as padded with the missing marker, as [read_csv] does.
      Column selection by labels follows pandas: every column carrying a
      requested label is taken, in the order of the request.
    - A [str] is the string of its UTF-8 bytes; comparison and substring
      search on the bytes agree with those on the characters.  Whether a
      character beyond ASCII is upper case is read from the character
      database of the interpreter, an explicit argument.
    - Python exceptions are values of [exn]; a call that may raise returns a
      [result]. *)

From Stdlib Require Import ZArith.
From stdpp Require Import base decidable option list strings sorting pretty gmap.

(** ** Exceptions and results *)

Definition path := list string.

Inductive exn :=
| FileNotFoundError (p : path)
| IsADirectoryError (p : path)
| ParserError (p : path)
| KeyError (k : string)
| UndefinedVariableError (k : string)
| AttributeError (k : string)
| IndexError
| AssertionError.

Inductive result (A : Type) :=
| OK (a : A)
| Raise (e : exn).
Arguments OK {A} a.
Arguments Raise {A} e.

Global Instance result_ret : MRet result := λ A a, OK a.
Global Instance result_bind : MBind result := λ A B f m,
  match m with
  | OK a => f a
  | Raise e => Raise e
  end.
Global Instance result_fmap : FMap result := λ A B f m,
  match m with
  | OK a => OK (f a)
  | Raise e => Raise e
  end.

(** A list comprehension whose body may raise: elements are evaluated in
    order and the first exception aborts the whole comprehension. *)
Fixpoint comprehension {A B} (f : A → result B) (l : list A) : result (list B) :=
  match l with
  | [] => OK []
  | x :: l' =>
      y ← f x;
      ys ← comprehension f l';
      OK (y :: ys)
  end.

(** A comprehension with a condition that may raise. *)
Fixpoint comprehension_if {A} (p : A → result bool) (l : list A) : result (list A) :=
  match l with
  | [] => OK []
  | x :: l' =>
      b ← p x;
      ys ← comprehension_if p l';
      OK (if b : bool then x :: ys else ys)
  end.

(** ** Files and the directory tree *)

(** Numeric entries of a spectrum; no property below computes on them. *)
Definition ndarray := list (list Z).

Record file := {
  (** [pd.read_csv(f)]: header and rows of tokens, [None] on a parse error *)
  csv : option (list string * list (list string));
  (** [pd.read_csv(f, sep=' ', comment='#', engine='c').values] *)
  ssv : option ndarray
}.

#[warnings="-register-all"]
Inductive node :=
| File (f : file)
| Dir (entries : list (string * node)).

Fixpoint entry (name : string) (es : list (string * node)) : option node :=
  match es with
  | [] => None
  | (n, child) :: es' => if decide (n = name) then Some child else entry name es'
  end.

Fixpoint resolve (fs : node) (p : path) : option node :=
  match p with
  | [] => Some fs
  | name :: p' =>
      match fs with
      | Dir es => child ← entry name es; resolve child p'
      | File _ => None
      end
  end.

Definition is_dir (n : node) : bool :=
  match n with Dir _ => true | File _ => false end.

Definition isdir (fs : node) (p : path) : bool :=
  match resolve fs p with Some (Dir _) => true | _ => false end.

Definition dirnames (es : list (string * node)) : list string :=
  fst <$> List.filter (λ e, is_dir e.2) es.

Definition nondirnames (es : list (string * node)) : list string :=
  fst <$> List.filter (λ e, negb (is_dir e.2)) es.

(** [os.walk(top)], top-down, not following links; a [top] that is not a
    directory yields nothing (the listing error is swallowed). *)
Fixpoint walk_node (top : path) (n : node) : list (path * list string * list string) :=
  match n with
  | File _ => []
  | Dir es =>
      (top, dirnames es, nondirnames es)
        :: flat_map (λ e, walk_node (top ++ [e.1]) e.2) es
  end.

Definition os_walk (fs : node) (top : path) : list (path * list string * list string) :=
  match resolve fs top with
  | Some n => walk_node top n
  | None => []
  end.

(** ** Tables *)

Inductive cell :=
| NaN
| Str (s : string)
| Num (n : Z).

Global Instance cell_eq_dec : EqDecision cell.
Proof. solve_decision. Defined.

Definition isna (c : cell) : bool :=
  match c with NaN => true | _ => false end.

Record DataFrame := {
  columns : list string;
  rows : list (list cell)
}.

(** [df.shape[0]] *)
Definition shape0 (df : DataFrame) : nat := length (rows df).

(** The tokens pandas reads as missing by default ([STR_NA_VALUES]). *)
Definition STR_NA_VALUES : list string :=
  [""; "#N/A"; "#N/A N/A"; "#NA"; "-1.#IND"; "-1.#QNAN"; "-NaN"; "-nan";
   "1.#IND"; "1.#QNAN"; "<NA>"; "N/A"; "NA"; "NULL"; "NaN"; "None"; "n/a";
   "nan"; "null"].

Definition parse_token (na_values : list string) (s : string) : cell :=
  if decide (s ∈ na_values ++ STR_NA_VALUES) then NaN else Str s.

(** [pd.read_csv(p, na_values=..., keep_default_na=True)].  Tokens stay
    strings: the numeric type inference of pandas is not modelled. *)
Definition pd_read_csv (fs : node) (p : path) (na_values : list string)
  : result DataFrame :=
  match resolve fs p with
  | None => Raise (FileNotFoundError p)
  | Some (Dir _) => Raise (IsADirectoryError p)
  | Some (File f) =>
      match csv f with
      | None => Raise (ParserError p)
      | Some (header, body) =>
          OK {| columns := header;
                rows := (λ r : list string, parse_token na_values <$> r) <$> body |}
      end
  end.

(** The spectrum reading of a file. *)
Definition read_spectrum (fs : node) (p : path) : result ndarray :=
  match resolve fs p with
  | None => Raise (FileNotFoundError p)
  | Some (Dir _) => Raise (IsADirectoryError p)
  | Some (File f) =>
      match ssv f with
      | None => Raise (ParserError p)
      | Some v => OK v
      end
  end.

(** All positions of the header that carry the label [k]. *)
Definition positions (k : string) (cols : list string) : list nat :=
  List.filter (λ i, bool_decide (cols !! i = Some k)) (seq 0 (length cols)).

(** The cell of row [r] at position [i]; short rows read as padded. *)
Definition at_pos (r : list cell) (i : nat) : cell := default NaN (r !! i).

(** The cells of row [r] under the columns labelled [k]. *)
Definition cells_of (cols : list string) (r : list cell) (k : string) : list cell :=
  at_pos r <$> positions k cols.

(** The indexer of [df[keys]]: for each key in turn, all positions that
    carry it (on a header with repeated labels pandas resolves a list of keys
    with [Index.get_indexer_non_unique], which returns every match of every
    key: requesting [b, b] on [c, b, a, b, b] gives [1, 3, 4, 1, 3, 4]); a key
    that labels no column raises [KeyError]. *)
Definition get_indexer (cols keys : list string) : result (list nat) :=
  @concat nat <$> comprehension
    (λ k, match positions k cols with
          | [] => Raise (KeyError k)
          | ps => OK ps
          end) keys.

(** [df[keys]] for a list of labels. *)
Definition getitem (df : DataFrame) (keys : list string) : result DataFrame :=
  idx ← get_indexer (columns df) keys;
  OK {| columns := (λ i, default "" (columns df !! i)) <$> idx;
        rows := (λ r : list cell, at_pos r <$> idx) <$> rows df |}.

(** [df[mask]] for a boolean mask aligned with the rows. *)
Definition getitem_mask (df : DataFrame) (mask : list bool) : DataFrame :=
  {| columns := columns df;
     rows := fst <$> List.filter snd (zip (rows df) mask) |}.

(** [df.isna().sum(axis='columns')]: the number of missing cells per row. *)
Definition isna_sum (df : DataFrame) : list nat :=
  (λ r : list cell, length (List.filter isna r)) <$> rows df.

(** [df.query('species == @species')]. *)
Definition query_species (df : DataFrame) (species : string) : result DataFrame :=
  match positions "species" (columns df) with
  | [] => Raise (UndefinedVariableError "species")
  | i :: _ =>
      OK (getitem_mask df
            ((λ r : list cell, bool_decide (at_pos r i = Str species)) <$> rows df))
  end.

(** [df.code]: the column as a sequence of values; on a frame with several
    columns labelled [code] the attribute is a frame, and iterating a frame
    yields its column labels. *)
Definition attr_code (df : DataFrame) : result (list cell) :=
  match positions "code" (columns df) with
  | [] => Raise (AttributeError "code")
  | [i] => OK (flip at_pos i <$> rows df)
  | idx => OK ((λ _ : nat, Str "code") <$> idx)
  end.

(** [f'{c}'] for a cell. *)
Definition format_cell (c : cell) : string :=
  match c with
  | NaN => "nan"
  | Str s => s
  | Num n => pretty n
  end.

(** ** Python string helpers *)

(** [s.startswith(p)] *)
Definition startswith (p s : string) : bool := String.prefix p s.

(** [sub in s] for strings *)
Fixpoint str_contains (sub s : string) : bool :=
  if String.prefix sub s then true
  else match s with
       | EmptyString => false
       | String _ s' => str_contains sub s'
       end.

(** A [str] is held as its UTF-8 bytes, so that a name begins with an ASCII
    character exactly when its first byte is below 128.  Among the ASCII
    characters the upper-case ones are the capital letters. *)
Definition isupper_ascii (a : Ascii.ascii) : bool :=
  let n := Ascii.nat_of_ascii a in (65 <=? n) && (n <=? 90).

(** What [str.isupper] consults beyond ASCII: the character database of the
    interpreter.  For a name whose first character lies outside ASCII it
    tells whether that character is an upper-case one. *)
Definition unicode_data : Type := string → bool.

(** [c[0].isupper()] for a non-empty [c]. *)
Definition isupper (ucd : unicode_data) (c : string) : bool :=
  match c with
  | EmptyString => false
  | String a _ =>
      if Ascii.nat_of_ascii a <? 128 then isupper_ascii a else ucd c
  end.

(** [c[0].isupper()]; indexing the empty string raises. *)
Definition first_isupper (ucd : unicode_data) (c : string) : result bool :=
  match c with
  | EmptyString => Raise IndexError
  | String _ _ => OK (isupper ucd c)
  end.

(** [assert b] *)
Definition py_assert (b : bool) : result unit :=
  if b then OK () else Raise AssertionError.

(** Values compared by the untyped [!=] of [is_multitask]: a list never
    equals an integer. *)
Inductive pyval :=
| PyList (l : list string)
| PyInt (n : Z).

Definition py_ne (a b : pyval) : bool :=
  match a, b with
  | PyList l1, PyList l2 => bool_decide (l1 ≠ l2)
  | PyInt m, PyInt n => bool_decide (m ≠ n)
  | _, _ => true
  end.

(** [df.isna().sum(axis=0)]: for every column, in header order, its label
    and the number of rows whose cell there is missing. *)
Definition isna_sum0 (df : DataFrame) : list (string * nat) :=
  imap (λ i c, (c, length (List.filter (λ r, isna (at_pos r i)) (rows df))))
    (columns df).

(** What a discovery method of the explorer does: it returns, or it reads a
    local variable that no turn of its loop has bound, or it raises what a
    call inside it raised. *)
Inductive discovery (A : Type) :=
| Found (a : A)
| UnboundLocalError (name : string)
| Raised (e : exn).
Arguments Found {A} a.
Arguments UnboundLocalError {A} name.
Arguments Raised {A} e.

(** ** The module [driams.py] *)

Definition _metadata_columns : list string :=
  ["code"; "bruker_organism_best_match"; "species"].

Module DRIAMSDatasetExplorer.

Definition _is_id_valid (fs : node) (id_file : path) : bool :=
  match resolve fs id_file with
  | None => false
  | Some _ =>
      match pd_read_csv fs id_file [] with
      | OK df => if decide ("code" ∉ columns df) then false else true
      | Raise _ => false
      end
  end.

(** One turn of the loop over [os.walk(id_directory)]; the state is
    [(n_dirs, filenames)]. *)
Definition _check_id_files_step (st : nat * list path)
    (e : path * list string * list string) : nat * list path :=
  let '(root, dirs, files) := e in
  (st.1 + length dirs,
   st.2 ++ ((λ f, root ++ [f]) <$> List.filter (λ f, negb (startswith "." f)) files)).

Definition _check_id_files (fs : node) (id_directory : path) : bool :=
  let '(n_dirs, filenames) :=
    foldl _check_id_files_step (0, []) (os_walk fs id_directory) in
  if decide (n_dirs ≠ length filenames) then false
  else
    let valid := _is_id_valid fs <$> filenames in
    bool_decide (false ∉ valid).

(** The loop over [os.walk(path)] runs its body on the first entry only
    and is skipped when the walk is empty; [Some b] is an early return. *)
Definition _site_layout (w : list (path * list string * list string)) : option bool :=
  match w with
  | [] => None
  | (_, dirs, _) :: _ =>
      if decide ("id" ∉ dirs) then Some false
      else if decide (("preprocessed" ∉ dirs) ∧ ("raw" ∉ dirs)) then Some false
      else None
  end.

Definition _is_site_valid (fs : node) (root : path) (site : string) : bool :=
  let path := root ++ [site] in
  match _site_layout (os_walk fs path) with
  | Some b => b
  | None =>
      if negb (_check_id_files fs (path ++ ["id"])) then false
      else true
  end.

Definition _get_available_antibiotics (fs : node) (ucd : unicode_data)
    (root : path) (site year : string) : result (list string) :=
  let path := root ++ [site; "id"; year; year +:+ "_clean.csv"] in
  df ← pd_read_csv fs path [];
  antibiotics ← comprehension_if (first_isupper ucd) (columns df);
  let antibiotics :=
    List.filter (λ a, negb (str_contains "Unnamed" a)) antibiotics in
  OK (merge_sort String.le antibiotics).

(** The loop binds [sites] on the first entry of the walk and leaves; on an
    empty walk [return sites] reads an unbound local. *)
Definition _get_available_sites (fs : node) (root : path) : discovery (list string) :=
  match os_walk fs root with
  | [] => UnboundLocalError "sites"
  | (_, dirs, _) :: _ => Found (merge_sort String.le dirs)
  end.

(** The walk is over the site's own directory. *)
Definition _get_available_years (fs : node) (root : path) (site : string)
  : discovery (list string) :=
  let path := root ++ [site] in
  match os_walk fs path with
  | [] => UnboundLocalError "years"
  | (_, dirs, _) :: _ => Found (merge_sort String.le dirs)
  end.

Definition available_years (fs : node) (root : path) (site : string)
  : discovery (list string) :=
  _get_available_years fs root site.

Definition available_sites (fs : node) (root : path) : discovery (list string) :=
  _get_available_sites fs root.

(** The dictionary comprehension over the available years; the value of a
    key is a function of the key, so the dictionary is the map of the
    (year, antibiotics) pairs. *)
Definition available_antibiotics (fs : node) (ucd : unicode_data)
    (root : path) (site : string) : discovery (gmap string (list string)) :=
  match available_years fs root site with
  | Found years =>
      match comprehension
              (λ year, pair year <$> _get_available_antibiotics fs ucd root site year)
              years with
      | OK items => Found (list_to_map items)
      | Raise e => Raised e
      end
  | UnboundLocalError name => UnboundLocalError name
  | Raised e => Raised e
  end.

End DRIAMSDatasetExplorer.

(** A spectrum object wraps the array read from its file. *)
Record MaldiTofSpectrum := { values : ndarray }.

Module DRIAMSDataset.

Record t := { X : list MaldiTofSpectrum; y : DataFrame }.

Definition __init__ (X : list MaldiTofSpectrum) (y : DataFrame) : result t :=
  _ ← py_assert (bool_decide (length X = shape0 y));
  OK {| X := X; y := y |}.

Definition is_multitask (self : t) : bool :=
  let n_cols :=
    List.filter (λ c, bool_decide (c ∉ _metadata_columns)) (columns (y self)) in
  py_ne (PyList n_cols) (PyInt 1).

Definition n_samples (self : t) : nat := shape0 (y self).

(** The per-label counts of missing values ([.loc[:, labels]] selects by
    label like [df[labels]]). *)
Definition n_label_avail (self : t) : result (list (string * nat)) :=
  let labels :=
    List.filter (λ col, bool_decide (col ∉ _metadata_columns)) (columns (y self)) in
  sel ← getitem (y self) labels;
  OK (isna_sum0 sel).

End DRIAMSDataset.

(** An encoder is any object with a [fit_transform] method on tables. *)
Record Encoder := { fit_transform : DataFrame → result DataFrame }.

Definition _load_metadata (fs : node) (filename : path) (species : string)
    (antibiotics : string + list string) (encoder : option Encoder)
    (handle_missing_resistance_measurements : string) : result DataFrame :=
  let antibiotics :=
    match antibiotics with inl a => [a] | inr l => l end in
  _ ← py_assert (bool_decide (handle_missing_resistance_measurements ∈
         ["remove_if_all_missing"; "remove_if_any_missing"; "keep"]));
  metadata ← pd_read_csv fs filename ["-"];
  metadata ← query_species metadata species;
  metadata ← getitem metadata (_metadata_columns ++ antibiotics);
  let n_antibiotics := length antibiotics in
  metadata ← match encoder with
             | Some e => fit_transform e metadata
             | None => OK metadata
             end;
  if decide (handle_missing_resistance_measurements = "remove_if_all_missing") then
    sel ← getitem metadata antibiotics;
    let na_values := isna_sum sel in
    OK (getitem_mask metadata ((λ n, bool_decide (n ≠ n_antibiotics)) <$> na_values))
  else if decide (handle_missing_resistance_measurements = "remove_if_any_missing") then
    sel ← getitem metadata antibiotics;
    let na_values := isna_sum sel in
    OK (getitem_mask metadata ((λ n, bool_decide (n = 0)) <$> na_values))
  else
    OK metadata.

Definition load_driams_dataset (fs : node) (root : path) (site year species : string)
    (antibiotics : string + list string) (encoder : option Encoder)
    (handle_missing_resistance_measurements : string) (load_raw : bool)
  : result (list MaldiTofSpectrum * DataFrame) :=
  let spectra_type := if load_raw then "raw" else "preprocessed" in
  let path_X := root ++ [site; spectra_type; year] in
  let id_file := root ++ [site; "id"; year; year +:+ "_clean.csv"] in
  metadata ← _load_metadata fs id_file species antibiotics encoder
               handle_missing_resistance_measurements;
  codes ← attr_code metadata;
  let spectra_files := (λ code, path_X ++ [format_cell code +:+ ".txt"]) <$> codes in
  spectra ← comprehension
              (λ f, Build_MaldiTofSpectrum <$> read_spectrum fs f) spectra_files;
  OK (spectra, metadata).

(** The table as it enters the missing-value step of [_load_metadata]: read,
    restricted to the species, projected and, when an encoder is given,
    encoded. *)
Definition entering_policy (fs : node) (filename : path) (species : string)
    (antibiotics : list string) (encoder : option Encoder) : result DataFrame :=
  metadata ← pd_read_csv fs filename ["-"];
  metadata ← query_species metadata species;
  metadata ← getitem metadata (_metadata_columns ++ antibiotics);
  match encoder with
  | Some e => fit_transform e metadata
  | None => OK metadata
  end.

(** The list of antibiotics after the normalisation at the head of
    [_load_metadata]. *)
Definition as_list (antibiotics : string + list string) : list string :=
  match antibiotics with inl a => [a] | inr l => l end.

Module LabelEncoder.

Record t := {
  encodings : gmap string cell;
  ignore_columns : list string
}.

(** Modelled from the spec: the replacement of one label value by
    [LabelEncoder] ([maldi_learn/preprocessing/generic.py], not among the
    sources).  A value in the vocabulary is replaced by its code, any other
    value passes through unchanged. *)
Definition encode (self : t) (c : cell) : cell :=
  match c with
  | Str s => default c (encodings self !! s)
  | _ => c
  end.

(** Modelled from the spec: [LabelEncoder.transform] (not among the
    sources).  Every cell of a column that is not ignored is encoded; the
    ignored columns, the header and the rows' order are left as they are;
    nothing is raised. *)
Definition transform (self : t) (df : DataFrame) : DataFrame :=
  {| columns := columns df;
     rows := (λ r : list cell,
                imap (λ i c,
                        match columns df !! i with
                        | Some name =>
                            if decide (name ∈ ignore_columns self) then c
                            else encode self c
                        | None => c
                        end) r) <$> rows df |}.

(** Modelled from the spec: [fit_transform] of the encoder (inherited, not
    among the sources) fits nothing and transforms. *)
Definition as_encoder (self : t) : Encoder :=
  {| fit_transform := λ df, OK (transform self df) |}.

End LabelEncoder.

(** [DRIAMSLabelEncoder.__init__]: the default encodings and the ignored
    metadata columns. *)
Definition DRIAMSLabelEncoder : LabelEncoder.t :=
  {| LabelEncoder.encodings :=
       list_to_map
         [("R", Num 1); ("I", Num 1); ("S", Num 0);
          ("R(1)", NaN); ("L(1)", NaN); ("I(1)", NaN);
          ("I(1), S(1)", NaN); ("R(1), I(1)", NaN); ("R(1), S(1)", NaN);
          ("R(1), I(1), S(1)", NaN)];
     LabelEncoder.ignore_columns := _metadata_columns |}.

(** The tokens of the default encodings that stand for a compound or
    low-confidence result. *)
Definition compound_tokens : list string :=
  ["R(1)"; "L(1)"; "I(1)"; "I(1), S(1)"; "R(1), I(1)"; "R(1), S(1)";
   "R(1), I(1), S(1)"].

(** The vocabulary of the default encodings. *)
Definition vocabulary : list string := ["R"; "I"; "S"] ++ compound_tokens.

(** ** Reading the identifier area *)

(** The number of directories met by a walk, and the non-hidden files it
    lists, as [_check_id_files] accumulates them. *)
Definition walk_n_dirs (w : list (path * list string * list string)) : nat :=
  sum_list ((λ e, length e.1.2) <$> w).

Definition walk_filenames (w : list (path * list string * list string)) : list path :=
  flat_map (λ e, (λ f, e.1.1 ++ [f]) <$>
                 List.filter (λ f, negb (startswith "." f)) e.2) w.

(** The subdirectories listed at [p]; nothing when [p] is not a directory. *)
Definition listdirs (fs : node) (p : path) : list string :=
  match resolve fs p with
  | Some (Dir es) => dirnames es
  | _ => []
  end.

(** A file that reads as a table with a [code] column. *)
Definition id_table (n : node) : bool :=
  match n with
  | File f =>
      match csv f with
      | Some (header, _) => bool_decide ("code" ∈ header)
      | None => false
      end
  | Dir _ => false
  end.

(** What the tree holds at [p] is a file that parses as a table with a
    [code] column. *)
Definition id_table_at (fs : node) (p : path) : bool :=
  match resolve fs p with
  | Some n => id_table n
  | None => false
  end.

(** The structural deviations of a site: no [id] subdirectory, neither
    [preprocessed] nor [raw], a count of directories under [id] that differs
    from the count of non-hidden files found there, or an identifier file
    that does not parse or has no [code] column. *)
Definition structural_deviation (fs : node) (root : path) (site : string) : Prop :=
  let site_path := root ++ [site] in
  let w := os_walk fs (site_path ++ ["id"]) in
  ("id" ∉ listdirs fs site_path) ∨
  (("preprocessed" ∉ listdirs fs site_path) ∧ ("raw" ∉ listdirs fs site_path)) ∨
  walk_n_dirs w ≠ length (walk_filenames w) ∨
  Exists (λ f, id_table_at fs f = false) (walk_filenames w).

(** ** Reading the discovery and the loader *)

(** The name begins with an upper-case character. *)
Definition starts_upper (ucd : unicode_data) (c : string) : bool :=
  match c with
  | EmptyString => false
  | String _ _ => isupper ucd c
  end.

(** The name is one of the placeholder labels [Unnamed: k] that [read_csv]
    gives to columns without a header, as the explorer recognises them. *)
Definition is_placeholder (c : string) : bool := str_contains "Unnamed" c.

(** The file from which [load_driams_dataset] reads the spectrum of a code. *)
Definition spectrum_file (root : path) (site year : string) (load_raw : bool)
    (code : cell) : path :=
  (root ++ [site; if load_raw then "raw" else "preprocessed"; year])
    ++ [format_cell code +:+ ".txt"].

(** The identifier table of a site and year. *)
Definition id_file (root : path) (site year : string) : path :=
  root ++ [site; "id"; year; year +:+ "_clean.csv"].

(** ** Reading the missing-value policy *)

(** The block marked [# handle_missing_values] in [_load_metadata], as a
    function of the table that enters it. *)
Definition handle_missing_values (metadata : DataFrame) (antibiotics : list string)
    (handle_missing_resistance_measurements : string) : result DataFrame :=
  let n_antibiotics := length antibiotics in
  if decide (handle_missing_resistance_measurements = "remove_if_all_missing") then
    sel ← getitem metadata antibiotics;
    let na_values := isna_sum sel in
    OK (getitem_mask metadata ((λ n, bool_decide (n ≠ n_antibiotics)) <$> na_values))
  else if decide (handle_missing_resistance_measurements = "remove_if_any_missing") then
    sel ← getitem metadata antibiotics;
    let na_values := isna_sum sel in
    OK (getitem_mask metadata ((λ n, bool_decide (n = 0)) <$> na_values))
  else
    OK metadata.

(** Row [r] of [df] has a value that is not missing under some column
    labelled by a member of [A]. *)
Definition has_value (df : DataFrame) (A : list string) (r : list cell) : bool :=
  existsb (λ a, existsb (λ c, negb (isna c)) (cells_of (columns df) r a)) A.

(** Row [r] of [df] misses no value under the columns labelled by [A]. *)
Definition complete (df : DataFrame) (A : list string) (r : list cell) : bool :=
  forallb (λ a, forallb (λ c, negb (isna c)) (cells_of (columns df) r a)) A.

(** What each policy promises about the returned table [out], given the
    table [entering] the missing-value step. *)
Definition policy_holds (policy : string) (A : list string)
    (entering out : DataFrame) : bool :=
  if decide (policy = "remove_if_all_missing") then
    forallb (has_value out A) (rows out)
  else if decide (policy = "remove_if_any_missing") then
    forallb (complete out A) (rows out)
  else
    bool_decide (shape0 out = shape0 entering).

(** An encoder that leaves the header of every table as it is. *)
Definition keeps_header (e : Encoder) : Prop :=
  ∀ df df', fit_transform e df = OK df' → columns df' = columns df.

(** ** Reading the rest of the module *)

(** The label columns of a table: those that are not descriptive. *)
Definition label_columns (df : DataFrame) : list string :=
  List.filter (λ col, bool_decide (col ∉ _metadata_columns)) (columns df).

(** The number of rows of [df] with a missing cell under a column labelled
    [c]. *)
Definition missing_in (df : DataFrame) (c : string) : nat :=
  length (List.filter (λ r, existsb isna (cells_of (columns df) r c)) (rows df)).

(** A specimen directory as the layout intends it: it holds files only, and
    exactly one of them is not hidden; that one is a table with a [code]
    column. *)
Definition specimen_dir (n : node) : bool :=
  match n with
  | File _ => false
  | Dir es =>
      forallb (λ e, negb (is_dir e.2)) es &&
      match List.filter (λ e, negb (startswith "." e.1)) es with
      | [e] => id_table e.2
      | _ => false
      end
  end.

(** ** Sample data *)

Module Sample.

Definition table (header : list string) (body : list (list string)) : file :=
  {| csv := Some (header, body); ssv := None |}.

Definition spectrum (v : ndarray) : file :=
  {| csv := None; ssv := Some v |}.

Definition header : list string :=
  ["code"; "bruker_organism_best_match"; "species"; "Cipro"].

(** A site with one year; row [A1] is susceptible, row [A2] carries a
    compound result, row [A3] has no measurement. *)
Definition clean_2015 : file :=
  table header
    [["A1"; "MALDI"; "Sa"; "S"];
     ["A2"; "MALDI"; "Sa"; "R(1)"];
     ["A3"; "MALDI"; "Sa"; "-"]].

Definition site_A : node :=
  Dir [("id", Dir [("2015", Dir [("2015_clean.csv", File clean_2015)])]);
       ("preprocessed",
        Dir [("2015", Dir [("A1.txt", File (spectrum [[2000; 7]; [2003; 9]]%Z));
                           ("A2.txt", File (spectrum [[2000; 1]]%Z))])])].

Definition root : node := Dir [("DRIAMS-A", site_A)].

Definition id_file : path := ["DRIAMS-A"; "id"; "2015"; "2015_clean.csv"].



(** A year whose table has an unlabelled column. *)
Definition clean_2016 : file :=
  table ["code"; "bruker_organism_best_match"; "species"; "Ciprofloxacin";
         "Unnamed: 7"] [].

Definition root_2016 : node :=
  Dir [("DRIAMS-A", Dir [("id", Dir [("2016", Dir [("2016_clean.csv", File clean_2016)])])])].

(** A dataset with one label column. *)
Definition single_label : DRIAMSDataset.t :=
  {| DRIAMSDataset.X := [ {| values := [[2000; 7]]%Z |} ];
     DRIAMSDataset.y := {| columns := header;
                           rows := [[Str "A1"; Str "MALDI"; Str "Sa"; Num 0]] |} |}.

(** A character database that knows the capital letters of the Latin-1
    supplement, U+00C0 to U+00DE without the multiplication sign: in UTF-8
    the byte 195 followed by a byte from 128 to 158 other than 151. *)
Definition ucd : unicode_data :=
  λ c, match c with
       | String a (String b _) =>
           let m := Ascii.nat_of_ascii a in
           let n := Ascii.nat_of_ascii b in
           (m =? 195) && (128 <=? n) && (n <=? 158) && negb (n =? 151)
       | _ => false
       end.

(** A year whose table names an antibiotic with an accented capital, next to
    a lower-case accented column. *)
Definition clean_2017 : file :=
  table ["code"; "bruker_organism_best_match"; "species"; "Érythromycine";
         "Cipro"; "état"] [].

Definition root_2017 : node :=
  Dir [("DRIAMS-A", Dir [("id", Dir [("2017", Dir [("2017_clean.csv", File clean_2017)])])])].

(** A site whose layout is as intended but whose identifier file does not
    parse as a table. *)
Definition root_unparseable : node :=
  Dir [("DRIAMS-D",
        Dir [("id", Dir [("2015", Dir [("2015_clean.csv",
                                         File {| csv := None; ssv := None |})])]);
             ("preprocessed", Dir [("2015", Dir [])])])].

(** A site whose layout is as intended but whose identifier table has no
    [code] column. *)
Definition root_no_code : node :=
  Dir [("DRIAMS-E",
        Dir [("id", Dir [("2015", Dir [("2015_clean.csv",
                                         File (table ["species"; "Cipro"] []))])]);
             ("raw", Dir [("2015", Dir [])])])].

(** An encoder object whose [fit_transform] keeps the header and the first
    three cells of every row, and turns the compound token [R(1)] into the
    missing marker in the cells after them. *)
Definition mark_compound : Encoder :=
  {| fit_transform := λ df,
       OK {| columns := columns df;
             rows := (λ r : list cell,
                        take 3 r ++
                        ((λ c, if decide (c = Str "R(1)") then NaN else c)
                           <$> drop 3 r))
                     <$> rows df |} |}.

(** A site whose only subdirectory is [id], holding a table at
    [id/id/id_clean.csv]. *)
Definition root_nested : node :=
  Dir [("DRIAMS-N",
        Dir [("id", Dir [("id", Dir [("id_clean.csv", File clean_2016)])])])].

End Sample.

(** * Properties *)

(** ** Results *)

Lemma bind_OK {A B} (m : result A) (f : A → result B) (b : B) :
  m ≫= f = OK b ↔ ∃ a, m = OK a ∧ f a = OK b.
Proof.
  destruct m as [a|e]; simpl; split.
  - eauto.
  - by intros (a' & [= ->] & ?).
  - discriminate.
  - by intros (? & [=] & _).
Qed.

Lemma fmap_OK {A B} (m : result A) (f : A → B) (b : B) :
  f <$> m = OK b ↔ ∃ a, m = OK a ∧ b = f a.
Proof.
  destruct m as [a|e]; simpl; split.
  - intros [= <-]. eauto.
  - by intros (a' & [= ->] & ->).
  - discriminate.
  - by intros (? & [=] & _).
Qed.

(** Closes a decidable goal on closed terms by evaluation. *)
Ltac by_compute := apply (bool_decide_unpack _); vm_compute; exact I.

Ltac inv_result :=
  repeat match goal with
  | H : _ ≫= _ = OK _ |- _ => apply bind_OK in H as (? & ? & H)
  | H : _ <$> _ = OK _ |- _ => apply fmap_OK in H as (? & H & ->)
  | H : OK _ = OK _ |- _ => injection H as H; subst
  | H : Raise _ = OK _ |- _ => discriminate H
  | H : mret _ = OK _ |- _ => injection H as H; subst
  end.

Lemma comprehension_OK {A B} (f : A → result B) (l : list A) (ys : list B) :
  comprehension f l = OK ys ↔ Forall2 (λ x y, f x = OK y) l ys.
Proof.
  revert ys. induction l as [|x l IH]; intros ys; simpl.
  - split; [intros [= <-]; constructor | by inversion 1].
  - split.
    + intros H. inv_result. constructor; [done|]. by apply IH.
    + inversion 1 as [|? y ? ys' Hx Hl]; subst.
      rewrite Hx. simpl. apply IH in Hl. rewrite Hl. done.
Qed.

Lemma comprehension_length {A B} (f : A → result B) (l : list A) (ys : list B) :
  comprehension f l = OK ys → length ys = length l.
Proof. rewrite comprehension_OK. intros H. symmetry. by eapply Forall2_length. Qed.

(** A comprehension with a failing element raises, and what it raises is
    the exception of some element of the list (the first that fails). *)
Lemma comprehension_first_Raise {A B} (f : A → result B) (l : list A) (x : A) (e : exn) :
  x ∈ l → f x = Raise e →
  ∃ x' e', x' ∈ l ∧ f x' = Raise e' ∧ comprehension f l = Raise e'.
Proof.
  intros Hin Hx. induction l as [|x0 l IH]; [by apply elem_of_nil in Hin|].
  simpl. destruct (f x0) as [y|e0] eqn:Hx0; simpl.
  - apply elem_of_cons in Hin as [->|Hin]; [congruence|].
    destruct (IH Hin) as (x' & e' & Hx' & Hf & ->).
    exists x', e'. split_and!; [by right | done | done].
  - exists x0, e0. split_and!; [by left | done | done].
Qed.



(** ** Column selection *)

Lemma elem_of_concat {A} (x : A) (ls : list (list A)) :
  x ∈ concat ls ↔ ∃ l, x ∈ l ∧ l ∈ ls.
Proof.
  rewrite list_elem_of_In, in_concat. split; intros (l & H1 & H2); exists l;
    by rewrite ?list_elem_of_In in *.
Qed.

Section labels.
Context (cols : list string).

Lemma elem_of_positions (i : nat) (k : string) :
  i ∈ positions k cols ↔ cols !! i = Some k.
Proof.
  unfold positions. rewrite list_elem_of_In, filter_In, <- list_elem_of_In.
  rewrite elem_of_seq, bool_decide_eq_true. split; [tauto|].
  intros H. split; [|done]. apply lookup_lt_Some in H. lia.
Qed.

Lemma positions_nil (k : string) : positions k cols = [] ↔ k ∉ cols.
Proof.
  split.
  - intros Hnil (i & Hi)%list_elem_of_lookup_1.
    apply elem_of_positions in Hi. rewrite Hnil in Hi. by apply elem_of_nil in Hi.
  - intros Hk. destruct (positions k cols) as [|i l] eqn:E; [done|].
    exfalso. apply Hk. apply (list_elem_of_lookup_2 _ i).
    apply elem_of_positions. rewrite E. left.
Qed.

Lemma positions_NoDup (k : string) : NoDup (positions k cols).
Proof.
  unfold positions.
  apply NoDup_ListNoDup, List.NoDup_filter, NoDup_ListNoDup, NoDup_seq.
Qed.

Lemma get_indexer_OK (keys : list string) (idx : list nat) :
  get_indexer cols keys = OK idx →
  idx = concat (flip positions cols <$> keys) ∧ Forall (λ k, k ∈ cols) keys.
Proof.
  unfold get_indexer. intros (pss & Hc & ->)%fmap_OK.
  apply comprehension_OK in Hc.
  induction Hc as [|k ps keys pss Hk _ [IH1 IH2]]; [done|].
  assert (positions k cols = ps ∧ k ∈ cols) as [<- Hin].
  { destruct (positions k cols) eqn:E; [done|]. injection Hk as <-. split; [done|].
    destruct (decide (k ∈ cols)) as [|Hn]; [done|].
    apply positions_nil in Hn. congruence. }
  split; [simpl; by rewrite IH1 | by constructor].
Qed.

Lemma get_indexer_total (keys : list string) :
  Forall (λ k, k ∈ cols) keys →
  get_indexer cols keys = OK (concat (flip positions cols <$> keys)).
Proof.
  intros H. unfold get_indexer.
  assert (comprehension
    (λ k, match positions k cols with [] => Raise (KeyError k) | ps => OK ps end)
    keys = OK (flip positions cols <$> keys)) as ->; [|done].
  apply comprehension_OK. induction H as [|k keys Hk _ IH]; constructor; [|done].
  unfold flip. destruct (positions k cols) eqn:E; [|done].
  by apply positions_nil in E.
Qed.

(** Requesting a label that the header does not carry raises. *)
Lemma get_indexer_missing (keys : list string) (k : string) :
  k ∈ keys → k ∉ cols → ∃ e, get_indexer cols keys = Raise e.
Proof.
  intros Hin Hk. unfold get_indexer.
  edestruct (comprehension_first_Raise
    (λ k, match positions k cols with [] => Raise (KeyError k) | ps => OK ps end)
    keys k (KeyError k) Hin) as (_ & e & _ & _ & ->); [|by eauto].
  apply positions_nil in Hk. by rewrite Hk.
Qed.

Lemma cells_of_selected (A : list string) (r : list cell) (a : string) (c : cell) :
  a ∈ A → c ∈ cells_of cols r a →
  c ∈ at_pos r <$> concat (flip positions cols <$> A).
Proof.
  unfold cells_of. intros Ha (i & -> & Hi)%list_elem_of_fmap.
  apply list_elem_of_fmap. exists i. split; [done|].
  apply elem_of_concat. exists (positions a cols). split; [done|].
  apply list_elem_of_fmap. by exists a.
Qed.

Lemma selected_cells_of (A : list string) (r : list cell) (c : cell) :
  c ∈ at_pos r <$> concat (flip positions cols <$> A) →
  ∃ a, a ∈ A ∧ c ∈ cells_of cols r a.
Proof.
  intros (i & -> & (ps & Hi & (a & -> & Ha)%list_elem_of_fmap)%elem_of_concat)%list_elem_of_fmap.
  exists a. split; [done|]. unfold cells_of. apply list_elem_of_fmap. by exists i.
Qed.

(** When every requested label names one column, the selection takes as
    many columns as labels were requested, and every label is present. *)
Lemma selected_length_one (A : list string) :
  Forall (λ a, length (positions a cols) = 1) A →
  length (concat (flip positions cols <$> A)) = length A.
Proof.
  induction 1 as [|a A Ha _ IH]; [done|].
  rewrite fmap_cons. cbn [concat]. rewrite length_app, IH.
  unfold flip at 1. by rewrite Ha.
Qed.

Lemma one_column_present (A : list string) :
  Forall (λ a, length (positions a cols) = 1) A → Forall (λ a, a ∈ cols) A.
Proof.
  intros H. eapply Forall_impl; [exact H|]. simpl. intros a Ha.
  destruct (decide (a ∈ cols)) as [|Hn]; [done|].
  apply positions_nil in Hn. by rewrite Hn in Ha.
Qed.

(** From here on the header carries no label twice. *)
Hypothesis cols_NoDup : NoDup cols.

Lemma one_column_NoDup (A : list string) :
  Forall (λ a, a ∈ cols) A → Forall (λ a, length (positions a cols) = 1) A.
Proof.
  intros H. eapply Forall_impl; [exact H|]. simpl.
  intros a [i Hi]%list_elem_of_lookup_1.
  assert (Hall : ∀ j, j ∈ positions a cols → j = i).
  { intros j Hj%elem_of_positions. by eapply NoDup_lookup. }
  pose proof (positions_NoDup a) as Hp.
  apply elem_of_positions in Hi.
  destruct (positions a cols) as [|x [|y l]].
  - by apply elem_of_nil in Hi.
  - done.
  - exfalso. apply NoDup_cons in Hp as [Hxy _]. apply Hxy.
    rewrite (Hall x), (Hall y); [left | right; left | left].
Qed.

Lemma positions_unique (i : nat) (k : string) :
  cols !! i = Some k → positions k cols = [i].
Proof.
  intros Hi.
  assert (Hall : ∀ j, j ∈ positions k cols → j = i).
  { intros j Hj%elem_of_positions. by eapply NoDup_lookup. }
  pose proof (positions_NoDup k) as Hp.
  apply elem_of_positions in Hi.
  destruct (positions k cols) as [|a [|b l]].
  - by apply elem_of_nil in Hi.
  - f_equal. apply Hall. left.
  - exfalso. apply NoDup_cons in Hp as [Hab _]. apply Hab.
    rewrite (Hall a), (Hall b); [left | right; left | left].
Qed.

(** Every requested label then selects one column. *)
Lemma selected_length (A : list string) :
  Forall (λ a, a ∈ cols) A →
  length (concat (flip positions cols <$> A)) = length A.
Proof.
  intros Hall. induction Hall as [|a A Ha _ IH]; [done|].
  rewrite fmap_cons. cbn [concat]. rewrite length_app, IH.
  apply list_elem_of_lookup_1 in Ha as [i Hi].
  unfold flip at 1. by rewrite (positions_unique i a).
Qed.

Lemma selected_labels (A : list string) :
  Forall (λ a, a ∈ cols) A →
  (λ i, default "" (cols !! i)) <$> concat (flip positions cols <$> A) = A.
Proof.
  intros Hall. induction Hall as [|k keys Hk _ IH]; [done|].
  rewrite fmap_cons. cbn [concat]. rewrite fmap_app, IH.
  apply list_elem_of_lookup_1 in Hk as [i Hi].
  unfold flip at 1. rewrite (positions_unique i k) by done.
  simpl. by rewrite Hi.
Qed.

End labels.

Lemma getitem_OK (df df' : DataFrame) (keys : list string) :
  getitem df keys = OK df' →
  Forall (λ k, k ∈ columns df) keys ∧
  df' = let idx := concat (flip positions (columns df) <$> keys) in
        {| columns := (λ i, default "" (columns df !! i)) <$> idx;
           rows := (λ r : list cell, at_pos r <$> idx) <$> rows df |}.
Proof.
  unfold getitem. intros (idx & Hidx & [= <-])%bind_OK.
  by apply get_indexer_OK in Hidx as [-> Hall].
Qed.

(** On a header without repeated labels, a selection takes exactly the
    requested labels, one column each. *)
Lemma getitem_columns (df df' : DataFrame) (keys : list string) :
  NoDup (columns df) → getitem df keys = OK df' → columns df' = keys.
Proof. intros Hnd [Hall ->]%getitem_OK. by apply selected_labels. Qed.

Lemma getitem_mask_rows (df : DataFrame) (p : list cell → bool) :
  rows (getitem_mask df (p <$> rows df)) = List.filter p (rows df).
Proof.
  unfold getitem_mask. simpl. induction (rows df) as [|r l IH]; [done|].
  cbn. destruct (p r); cbn; by rewrite IH.
Qed.

Lemma query_species_columns (df df' : DataFrame) (species : string) :
  query_species df species = OK df' → columns df' = columns df.
Proof.
  unfold query_species. destruct (positions _ _); [done|]. by intros [= <-].
Qed.

Lemma isna_filter_length (cs : list cell) :
  length (List.filter isna cs) ≤ length cs.
Proof. apply List.filter_length_le. Qed.

Lemma isna_filter_all (cs : list cell) :
  length (List.filter isna cs) = length cs ↔ Forall (λ c, c = NaN) cs.
Proof.
  induction cs as [|c cs IH]; simpl; [split; [constructor|done]|].
  pose proof (isna_filter_length cs).
  destruct c; simpl; rewrite ?Forall_cons; split;
    try (intros; lia); try (by intros [[=] _]).
  - intros [= Hl]. split; [done|]. by apply IH.
  - intros [_ Hall]. f_equal. by apply IH.
Qed.

Lemma isna_filter_none (cs : list cell) :
  length (List.filter isna cs) = 0 ↔ Forall (λ c, c ≠ NaN) cs.
Proof.
  induction cs as [|c cs IH]; simpl; [split; [constructor|done]|].
  destruct c; simpl; rewrite Forall_cons; split;
    try discriminate; try (by intros [? _]);
    try (intros ?; split; [done|by apply IH]); intros [_ ?]; by apply IH.
Qed.

(** ** The missing-value step *)

Lemma _load_metadata_eq fs filename species antibiotics encoder policy :
  _load_metadata fs filename species antibiotics encoder policy =
    (_ ← py_assert (bool_decide (policy ∈
           ["remove_if_all_missing"; "remove_if_any_missing"; "keep"]));
     metadata ← entering_policy fs filename species (as_list antibiotics) encoder;
     handle_missing_values metadata (as_list antibiotics) policy).
Proof.
  unfold _load_metadata, entering_policy, handle_missing_values, as_list.
  destruct (py_assert _); simpl; [|done].
  destruct (pd_read_csv _ _ _); simpl; [|done].
  destruct (query_species _ _); simpl; [|done].
  destruct (getitem _ _); simpl; [|done].
  done.
Qed.

Lemma has_value_true (df : DataFrame) (A : list string) (r : list cell) :
  has_value df A r = true ↔
  ∃ a c, a ∈ A ∧ c ∈ cells_of (columns df) r a ∧ c ≠ NaN.
Proof.
  unfold has_value. rewrite existsb_exists. split.
  - intros (a & Ha & (c & Hc & Hna)%existsb_exists).
    exists a, c. rewrite !list_elem_of_In. split_and!; [done..|].
    intros ->. done.
  - intros (a & c & Ha & Hc & Hna). exists a. rewrite <- list_elem_of_In.
    split; [done|]. apply existsb_exists. exists c. rewrite <- list_elem_of_In.
    split; [done|]. by destruct c.
Qed.

Lemma complete_true (df : DataFrame) (A : list string) (r : list cell) :
  complete df A r = true ↔
  ∀ a c, a ∈ A → c ∈ cells_of (columns df) r a → c ≠ NaN.
Proof.
  unfold complete. rewrite forallb_forall. split.
  - intros H a c Ha Hc ->. apply list_elem_of_In in Ha. specialize (H a Ha).
    rewrite forallb_forall in H. apply list_elem_of_In in Hc. by specialize (H _ Hc).
  - intros H a Ha. apply forallb_forall. intros c Hc.
    apply list_elem_of_In in Ha, Hc. specialize (H a c Ha Hc). by destruct c.
Qed.

Lemma forallb_filter {A} (p : A → bool) (l : list A) :
  forallb p (List.filter p l) = true.
Proof. apply forallb_forall. by intros x [_ ?]%filter_In. Qed.

Section policy_step.
Context (metadata : DataFrame) (A : list string).

(** The cells that [metadata[antibiotics]] takes from a row. *)
Let selected (r : list cell) : list cell :=
  at_pos r <$> concat (flip positions (columns metadata) <$> A).

(** The two masked branches: the selection must succeed, and the rows kept
    are those whose count of missing selected cells passes the test. *)
Lemma masked_branch (test : nat → bool) :
  (sel ← getitem metadata A;
   OK (getitem_mask metadata (test <$> isna_sum sel)))
  = (_ ← get_indexer (columns metadata) A;
     OK {| columns := columns metadata;
           rows := List.filter (λ r, test (length (List.filter isna (selected r))))
                     (rows metadata) |}).
Proof.
  unfold getitem. destruct (get_indexer (columns metadata) A) as [idx|e] eqn:E;
    [|done].
  apply get_indexer_OK in E as [-> _]. cbn [mbind result_bind].
  f_equal. unfold getitem_mask at 1. f_equal.
  rewrite <- getitem_mask_rows. f_equal. f_equal.
  unfold isna_sum. cbn [rows]. by rewrite <- !list_fmap_compose.
Qed.

Lemma any_missing_test (r : list cell) :
  bool_decide (length (List.filter isna (selected r)) = 0) = complete metadata A r.
Proof.
  apply eq_true_iff_eq.
  rewrite bool_decide_eq_true, isna_filter_none, complete_true, Forall_forall.
  split.
  - intros Hr a c Ha Hc. apply Hr. by eapply cells_of_selected.
  - intros Hr c (a & Ha & Hc)%selected_cells_of. by eapply Hr.
Qed.

Lemma all_missing_test (r : list cell) :
  NoDup (columns metadata) → Forall (λ a, a ∈ columns metadata) A →
  bool_decide (length (List.filter isna (selected r)) ≠ length A)
  = has_value metadata A r.
Proof.
  intros Hnd Hall.
  assert (length (selected r) = length A) as <-.
  { unfold selected. rewrite length_fmap. by apply selected_length. }
  apply eq_true_iff_eq.
  rewrite bool_decide_eq_true, isna_filter_all, has_value_true. split.
  - intros Hr. apply not_Forall_Exists in Hr; [|apply _].
    apply Exists_exists in Hr as (c & Hc & Hna).
    apply selected_cells_of in Hc as (a & Ha & Hc). by exists a, c.
  - intros (a & c & Ha & Hc & Hna) Hf. rewrite Forall_forall in Hf.
    apply Hna, Hf. by eapply cells_of_selected.
Qed.

(** The same when every requested label names one column of the table. *)
Lemma all_missing_test_one (r : list cell) :
  Forall (λ a, length (positions a (columns metadata)) = 1) A →
  bool_decide (length (List.filter isna (selected r)) ≠ length A)
  = has_value metadata A r.
Proof.
  intros Hone.
  assert (length (selected r) = length A) as <-.
  { unfold selected. rewrite length_fmap. by apply selected_length_one. }
  apply eq_true_iff_eq.
  rewrite bool_decide_eq_true, isna_filter_all, has_value_true. split.
  - intros Hr. apply not_Forall_Exists in Hr; [|apply _].
    apply Exists_exists in Hr as (c & Hc & Hna).
    apply selected_cells_of in Hc as (a & Ha & Hc). by exists a, c.
  - intros (a & c & Ha & Hc & Hna) Hf. rewrite Forall_forall in Hf.
    apply Hna, Hf. by eapply cells_of_selected.
Qed.

(** When every requested label names one column, [remove_if_all_missing]
    keeps exactly the rows that have a value under a requested column. *)
Lemma all_missing_one :
  Forall (λ a, length (positions a (columns metadata)) = 1) A →
  handle_missing_values metadata A "remove_if_all_missing" =
    OK {| columns := columns metadata;
          rows := List.filter (has_value metadata A) (rows metadata) |}.
Proof.
  intros Hone. unfold handle_missing_values. rewrite decide_True by done.
  rewrite masked_branch, (get_indexer_total _ _ (one_column_present _ _ Hone)).
  cbn [mbind result_bind].
  do 2 f_equal. apply filter_ext. intros r. by apply all_missing_test_one.
Qed.

(** Whatever the policy, the step leaves the header as it is. *)
Lemma handle_missing_values_columns (policy : string) (out : DataFrame) :
  handle_missing_values metadata A policy = OK out →
  columns out = columns metadata.
Proof.
  unfold handle_missing_values.
  repeat case_decide; rewrite ?masked_branch;
    [intros (? & _ & [= <-])%bind_OK..|intros [= <-]]; done.
Qed.

(** [remove_if_any_missing] keeps exactly the rows that miss no value under
    a requested column. *)
Lemma any_missing_spec (out : DataFrame) :
  handle_missing_values metadata A "remove_if_any_missing" = OK out →
  out = {| columns := columns metadata;
           rows := List.filter (complete metadata A) (rows metadata) |}.
Proof.
  unfold handle_missing_values. rewrite decide_False, decide_True by done.
  rewrite masked_branch. intros (_ & _ & [= <-])%bind_OK. f_equal.
  apply filter_ext. intros r. apply any_missing_test.
Qed.

(** On a header without repeated labels, [remove_if_all_missing] keeps
    exactly the rows that have a value under a requested column. *)
Lemma all_missing_spec :
  NoDup (columns metadata) → Forall (λ a, a ∈ columns metadata) A →
  handle_missing_values metadata A "remove_if_all_missing" =
    OK {| columns := columns metadata;
          rows := List.filter (has_value metadata A) (rows metadata) |}.
Proof.
  intros Hnd Hall. unfold handle_missing_values. rewrite decide_True by done.
  rewrite masked_branch, (get_indexer_total _ _ Hall). cbn [mbind result_bind].
  do 2 f_equal. apply filter_ext. intros r. by apply all_missing_test.
Qed.

Lemma all_missing_requires (out : DataFrame) :
  handle_missing_values metadata A "remove_if_all_missing" = OK out →
  Forall (λ a, a ∈ columns metadata) A.
Proof.
  unfold handle_missing_values. rewrite decide_True by done.
  rewrite masked_branch. by intros (idx & [_ ?]%get_indexer_OK & _)%bind_OK.
Qed.

Lemma keep_spec (policy : string) (out : DataFrame) :
  policy ≠ "remove_if_all_missing" → policy ≠ "remove_if_any_missing" →
  handle_missing_values metadata A policy = OK out → out = metadata.
Proof.
  intros H1 H2. unfold handle_missing_values.
  rewrite !decide_False by done. by intros [= <-].
Qed.

End policy_step.

Lemma entering_policy_columns fs filename species A encoder t entering :
  pd_read_csv fs filename ["-"] = OK t → NoDup (columns t) →
  (∀ e, encoder = Some e → keeps_header e) →
  entering_policy fs filename species A encoder = OK entering →
  columns entering = _metadata_columns ++ A.
Proof.
  intros Hread Hnd Henc. unfold entering_policy. rewrite Hread. simpl.
  intros (q & Hq & (p & Hp & Hent)%bind_OK)%bind_OK.
  apply query_species_columns in Hq. rewrite <- Hq in Hnd.
  apply (getitem_columns _ _ _ Hnd) in Hp.
  destruct encoder as [e|]; [|by injection Hent as <-].
  rewrite <- Hp. by apply (Henc e).
Qed.

(** ** The missing-value policy of [_load_metadata] *)

(** What [policy_holds] says, spelled out. *)
Lemma policy_holds_true (policy : string) (A : list string) (entering out : DataFrame) :
  policy_holds policy A entering out = true ↔
  (policy = "remove_if_all_missing" →
     ∀ r, r ∈ rows out →
       ∃ a c, a ∈ A ∧ c ∈ cells_of (columns out) r a ∧ c ≠ NaN) ∧
  (policy = "remove_if_any_missing" →
     ∀ r, r ∈ rows out →
       ∀ a c, a ∈ A → c ∈ cells_of (columns out) r a → c ≠ NaN) ∧
  (policy ≠ "remove_if_all_missing" → policy ≠ "remove_if_any_missing" →
     shape0 out = shape0 entering).
Proof.
  unfold policy_holds.
  destruct (decide (policy = "remove_if_all_missing")) as [->|Hall].
  { rewrite forallb_forall. split.
    - intros H. split_and!; [|done..]. intros _ r Hr%list_elem_of_In.
      by apply has_value_true, H.
    - intros (H & _ & _) r Hr%list_elem_of_In. by apply has_value_true, H. }
  destruct (decide (policy = "remove_if_any_missing")) as [->|Hany].
  { rewrite forallb_forall. split.
    - intros H. split_and!; [done| |done]. intros _ r Hr%list_elem_of_In.
      by apply complete_true, H.
    - intros (_ & H & _) r Hr%list_elem_of_In. by apply complete_true, H. }
  rewrite bool_decide_eq_true. split; [by intros ?; split_and!|].
  intros (_ & _ & H). by apply H.
Qed.

(** C1, with the repeated request set apart.  Whenever [_load_metadata]
    returns a table, the policy was one of the three and the table satisfies
    it over the requested columns.  Under [remove_if_any_missing] every
    retained row misses none of them, and under [keep] the table is the one
    that entered the policy step, so that no row is removed: both for every
    request.  Under [remove_if_all_missing] every retained row has a value
    that is not missing under one of them, provided every requested name
    labels exactly one column of the returned table. *)
Theorem load_metadata_policy (fs : node) (filename : path) (species : string)
    (antibiotics : string + list string) (encoder : option Encoder)
    (policy : string) (out : DataFrame) :
  _load_metadata fs filename species antibiotics encoder policy = OK out →
  ∃ entering,
    entering_policy fs filename species (as_list antibiotics) encoder = OK entering ∧
    policy ∈ ["remove_if_all_missing"; "remove_if_any_missing"; "keep"] ∧
    (policy = "remove_if_all_missing" →
       Forall (λ a, length (positions a (columns out)) = 1) (as_list antibiotics) →
       policy_holds policy (as_list antibiotics) entering out = true) ∧
    (policy = "remove_if_any_missing" →
       policy_holds policy (as_list antibiotics) entering out = true) ∧
    (policy = "keep" →
       policy_holds policy (as_list antibiotics) entering out = true ∧
       out = entering).
Proof.
  intros Hload. rewrite _load_metadata_eq in Hload.
  apply bind_OK in Hload as ([] & Hassert & (entering & Hent & Hpol)%bind_OK).
  exists entering. split; [done|]. split.
  { unfold py_assert in Hassert. case_bool_decide; [done|discriminate]. }
  unfold policy_holds. split_and!.
  - intros -> Hone. rewrite decide_True by done.
    rewrite (handle_missing_values_columns _ _ _ _ Hpol) in Hone.
    rewrite (all_missing_one _ _ Hone) in Hpol. injection Hpol as <-.
    apply forallb_filter.
  - intros ->. rewrite decide_False, decide_True by done.
    apply any_missing_spec in Hpol as ->. apply forallb_filter.
  - intros ->. rewrite !decide_False by done.
    apply keep_spec in Hpol as ->; [|done..]. split; [|done].
    by apply bool_decide_eq_true.
Qed.

(** C1 at the sample table without encoder: under [remove_if_all_missing]
    with one antibiotic, and under [remove_if_any_missing] with the antibiotic
    requested twice, where no condition on the request is needed. *)
Lemma load_metadata_policy_witness :
  (∃ out entering,
     _load_metadata Sample.root Sample.id_file "Sa" (inl "Cipro") None
       "remove_if_all_missing" = OK out ∧
     entering_policy Sample.root Sample.id_file "Sa" ["Cipro"] None = OK entering ∧
     policy_holds "remove_if_all_missing" ["Cipro"] entering out = true) ∧
  (∃ out entering,
     _load_metadata Sample.root Sample.id_file "Sa" (inr ["Cipro"; "Cipro"]) None
       "remove_if_any_missing" = OK out ∧
     entering_policy Sample.root Sample.id_file "Sa" ["Cipro"; "Cipro"] None
       = OK entering ∧
     policy_holds "remove_if_any_missing" ["Cipro"; "Cipro"] entering out = true).
Proof.
  split.
  - edestruct (load_metadata_policy Sample.root Sample.id_file "Sa" (inl "Cipro")
                 None "remove_if_all_missing")
      as (entering & Hent & _ & Hall & _ & _); [vm_compute; reflexivity|].
    eexists _, entering. split; [vm_compute; reflexivity|]. split; [exact Hent|].
    apply Hall; [reflexivity|]. by_compute.
  - edestruct (load_metadata_policy Sample.root Sample.id_file "Sa"
                 (inr ["Cipro"; "Cipro"]) None "remove_if_any_missing")
      as (entering & Hent & _ & _ & Hany & _); [vm_compute; reflexivity|].
    eexists _, entering. split; [vm_compute; reflexivity|]. split; [exact Hent|].
    by apply Hany.
Defined.

(** C1 as stated fails when an antibiotic is requested twice: the projection
    then carries the column twice, the selection over the request takes four
    cells per row, and a row whose measurement is missing counts four missing
    cells against [n_antibiotics = 2], so it is retained although it has no
    value under the requested column. *)
Lemma load_metadata_policy_repeated_request :
  ∃ entering out,
    entering_policy Sample.root Sample.id_file "Sa" ["Cipro"; "Cipro"] None
      = OK entering ∧
    _load_metadata Sample.root Sample.id_file "Sa" (inr ["Cipro"; "Cipro"]) None
      "remove_if_all_missing" = OK out ∧
    [Str "A3"; Str "MALDI"; Str "Sa"; NaN; NaN] ∈ rows out ∧
    policy_holds "remove_if_all_missing" ["Cipro"; "Cipro"] entering out = false.
Proof.
  do 2 eexists. split; [vm_compute; reflexivity|].
  split; [vm_compute; reflexivity|].
  split; [|vm_compute; reflexivity].
  simpl. do 2 right. left.
Qed.

(** On a table with pairwise distinct labels, a request of pairwise distinct
    names none of which is a descriptive column, and an encoder, if any, that
    keeps the header, every requested name labels exactly one column of what
    enters the policy step. *)
Lemma distinct_request_one_column fs filename species A encoder t entering :
  pd_read_csv fs filename ["-"] = OK t →
  NoDup (columns t) →
  NoDup (_metadata_columns ++ A) →
  (∀ e, encoder = Some e → keeps_header e) →
  entering_policy fs filename species A encoder = OK entering →
  Forall (λ a, length (positions a (columns entering)) = 1) A.
Proof.
  intros Hread Hnd HndA Henc Hent.
  pose proof (entering_policy_columns _ _ _ _ _ _ _ Hread Hnd Henc Hent) as Hcols.
  rewrite Hcols. apply one_column_NoDup; [done|].
  apply Forall_forall. intros a Ha. apply elem_of_app. by right.
Qed.

(** ** The encoder runs before the policy *)

(** With and without an encoder the table is read, restricted and projected
    alike; the encoder, when given, is then run on the projection. *)
Lemma entering_policy_encoded fs filename species A (e : Encoder) projected :
  entering_policy fs filename species A None = OK projected →
  entering_policy fs filename species A (Some e) = fit_transform e projected.
Proof.
  unfold entering_policy.
  destruct (pd_read_csv fs filename ["-"]) as [t|]; cbn [mbind result_bind]; [|done].
  destruct (query_species t species) as [q|]; cbn [mbind result_bind]; [|done].
  destruct (getitem q _) as [p|]; cbn [mbind result_bind]; [|done].
  by intros [= ->].
Qed.

(** When every requested name labels one column of the table entering the
    policy step, [remove_if_all_missing] returns that table restricted to
    the rows with a value under a requested column. *)
Lemma load_metadata_one_column fs filename species antibiotics encoder entering :
  entering_policy fs filename species (as_list antibiotics) encoder = OK entering →
  Forall (λ a, length (positions a (columns entering)) = 1) (as_list antibiotics) →
  _load_metadata fs filename species antibiotics encoder "remove_if_all_missing" =
    OK {| columns := columns entering;
          rows := List.filter (has_value entering (as_list antibiotics))
                    (rows entering) |}.
Proof.
  intros Hent Hone. rewrite _load_metadata_eq, Hent. simpl.
  by apply all_missing_one.
Qed.

Lemma filter_without {A} (p : A → bool) (l : list A) (i : nat) (x : A) :
  l !! i = Some x → p x = false →
  List.filter p l = List.filter p (take i l ++ drop (S i) l).
Proof.
  intros Hi Hx. rewrite <- (take_drop_middle l i x Hi) at 1.
  rewrite !List.filter_app. cbn [List.filter]. by rewrite Hx.
Qed.

(** C2, for a request whose names label one column each.  The encoder is run
    on the projected table and the policy is evaluated on what the encoder
    returns.  Take row [i] of the projected table, with raw cells [r0] of
    which one under a requested antibiotic is not missing, and let the
    encoder turn it into [r1] with every cell under the requested antibiotics
    missing.  When every requested name labels exactly one column of the
    encoded table, [_load_metadata] with the encoder and
    [remove_if_all_missing] returns the encoded table restricted to its rows
    with a value under a requested antibiotic: row [i] contributes nothing
    and [r1] is not among the rows returned.  Without the encoder the same
    call retains the raw row. *)
Theorem encoder_before_policy (fs : node) (filename : path) (species : string)
    (antibiotics : string + list string) (e : Encoder)
    (projected encoded : DataFrame) (i : nat) (r0 r1 : list cell) :
  entering_policy fs filename species (as_list antibiotics) None = OK projected →
  fit_transform e projected = OK encoded →
  Forall (λ a, length (positions a (columns encoded)) = 1) (as_list antibiotics) →
  rows projected !! i = Some r0 →
  rows encoded !! i = Some r1 →
  has_value projected (as_list antibiotics) r0 = true →
  has_value encoded (as_list antibiotics) r1 = false →
  entering_policy fs filename species (as_list antibiotics) (Some e) = OK encoded ∧
  (∃ out,
     _load_metadata fs filename species antibiotics (Some e)
       "remove_if_all_missing" = OK out ∧
     columns out = columns encoded ∧
     rows out = List.filter (has_value encoded (as_list antibiotics)) (rows encoded) ∧
     rows out = List.filter (has_value encoded (as_list antibiotics))
                  (take i (rows encoded) ++ drop (S i) (rows encoded)) ∧
     r1 ∉ rows out) ∧
  (Forall (λ a, length (positions a (columns projected)) = 1) (as_list antibiotics) →
   ∃ out0,
     _load_metadata fs filename species antibiotics None
       "remove_if_all_missing" = OK out0 ∧
     rows out0 = List.filter (has_value projected (as_list antibiotics))
                   (rows projected) ∧
     r0 ∈ rows out0).
Proof.
  intros Hproj Henc Hone Hr0 Hr1 Hraw Hna.
  assert (Hent : entering_policy fs filename species (as_list antibiotics) (Some e)
                 = OK encoded).
  { by rewrite (entering_policy_encoded _ _ _ _ _ _ Hproj). }
  split; [done|]. split.
  - eexists. split; [by apply load_metadata_one_column|]. cbn [columns rows].
    split_and!; [done | done | by eapply filter_without |].
    rewrite list_elem_of_In, filter_In. intros [_ Hv]. congruence.
  - intros Hone0. eexists. split; [by apply load_metadata_one_column|].
    cbn [rows]. split; [done|].
    rewrite list_elem_of_In, filter_In, <- list_elem_of_In. split; [|done].
    by eapply list_elem_of_lookup_2.
Qed.

(** C2 on the sample table, encoded by [DRIAMSLabelEncoder]: row [A2]
    carries the compound token [R(1)].  With the encoder the call returns
    the encoded row [A1] alone; without it the raw row [A2] is retained. *)
Lemma encoder_before_policy_witness :
  (∃ out, _load_metadata Sample.root Sample.id_file "Sa" (inl "Cipro")
            (Some (LabelEncoder.as_encoder DRIAMSLabelEncoder))
            "remove_if_all_missing" = OK out ∧
          columns out = Sample.header ∧
          rows out = [[Str "A1"; Str "MALDI"; Str "Sa"; Num 0]] ∧
          [Str "A2"; Str "MALDI"; Str "Sa"; NaN] ∉ rows out) ∧
  (∃ out0, _load_metadata Sample.root Sample.id_file "Sa" (inl "Cipro") None
             "remove_if_all_missing" = OK out0 ∧
           [Str "A2"; Str "MALDI"; Str "Sa"; Str "R(1)"] ∈ rows out0).
Proof.
  destruct (encoder_before_policy Sample.root Sample.id_file "Sa" (inl "Cipro")
              (LabelEncoder.as_encoder DRIAMSLabelEncoder)
              {| columns := Sample.header;
                 rows := [[Str "A1"; Str "MALDI"; Str "Sa"; Str "S"];
                          [Str "A2"; Str "MALDI"; Str "Sa"; Str "R(1)"];
                          [Str "A3"; Str "MALDI"; Str "Sa"; NaN]] |}
              {| columns := Sample.header;
                 rows := [[Str "A1"; Str "MALDI"; Str "Sa"; Num 0];
                          [Str "A2"; Str "MALDI"; Str "Sa"; NaN];
                          [Str "A3"; Str "MALDI"; Str "Sa"; NaN]] |}
              1
              [Str "A2"; Str "MALDI"; Str "Sa"; Str "R(1)"]
              [Str "A2"; Str "MALDI"; Str "Sa"; NaN])
    as (_ & (out & Hout & Hcols & Hrows & _ & Hdrop) & Hraw).
  - vm_compute. reflexivity.
  - vm_compute. reflexivity.
  - by_compute.
  - reflexivity.
  - reflexivity.
  - vm_compute. reflexivity.
  - vm_compute. reflexivity.
  - split.
    + exists out. split_and!; [exact Hout | exact Hcols | | exact Hdrop].
      rewrite Hrows. vm_compute. reflexivity.
    + destruct Hraw as (out0 & Hout0 & _ & Hin); [by_compute|].
      exists out0. split; [exact Hout0 | exact Hin].
Defined.

(** C2 as stated fails when an antibiotic is requested twice.  The encoder
    of this instance turns the compound token [R(1)] into the missing marker
    under every column that is not descriptive.  Row [A2] has no other value
    under the requested antibiotic, and after encoding every cell of it there
    is missing; the selection over the request takes four cells, all four
    missing, against [n_antibiotics = 2], so the row is retained. *)
Lemma encoder_before_policy_repeated_request :
  ∃ projected encoded out,
    entering_policy Sample.root Sample.id_file "Sa" ["Cipro"; "Cipro"] None
      = OK projected ∧
    fit_transform Sample.mark_compound projected = OK encoded ∧
    rows projected !! 1 =
      Some [Str "A2"; Str "MALDI"; Str "Sa"; Str "R(1)"; Str "R(1)"] ∧
    rows encoded !! 1 = Some [Str "A2"; Str "MALDI"; Str "Sa"; NaN; NaN] ∧
    has_value encoded ["Cipro"; "Cipro"] [Str "A2"; Str "MALDI"; Str "Sa"; NaN; NaN]
      = false ∧
    _load_metadata Sample.root Sample.id_file "Sa" (inr ["Cipro"; "Cipro"])
      (Some Sample.mark_compound) "remove_if_all_missing" = OK out ∧
    [Str "A2"; Str "MALDI"; Str "Sa"; NaN; NaN] ∈ rows out.
Proof.
  do 3 eexists. split; [vm_compute; reflexivity|].
  split; [vm_compute; reflexivity|].
  split; [reflexivity|]. split; [reflexivity|].
  split; [vm_compute; reflexivity|].
  split; [vm_compute; reflexivity|].
  cbn [rows]. right. left.
Qed.

(** [DRIAMSLabelEncoder] behaves alike on the repeated request: nothing is
    dropped, and the rows [A2] and [A3] stay without a value. *)
Example driams_encoder_repeated_request :
  _load_metadata Sample.root Sample.id_file "Sa" (inr ["Cipro"; "Cipro"])
    (Some (LabelEncoder.as_encoder DRIAMSLabelEncoder)) "remove_if_all_missing"
  = OK {| columns := Sample.header ++ ["Cipro"];
          rows := [[Str "A1"; Str "MALDI"; Str "Sa"; Num 0; Num 0];
                   [Str "A2"; Str "MALDI"; Str "Sa"; NaN; NaN];
                   [Str "A3"; Str "MALDI"; Str "Sa"; NaN; NaN]] |}.
Proof. by vm_compute. Qed.

(** The scenario with rows [A1] ([S]) and [A2] ([R(1)]), encoded and filtered
    by [remove_if_all_missing]: [A1] is retained with value 0, [A2] is
    dropped, and so is [A3], which had no measurement. *)
Example encoded_sample_all_missing :
  _load_metadata Sample.root Sample.id_file "Sa" (inr ["Cipro"])
    (Some (LabelEncoder.as_encoder DRIAMSLabelEncoder)) "remove_if_all_missing"
  = OK {| columns := Sample.header;
          rows := [[Str "A1"; Str "MALDI"; Str "Sa"; Num 0]] |}.
Proof. by vm_compute. Qed.

(** Under [keep] the three rows of the species stay, encoded. *)
Example encoded_sample_keep :
  _load_metadata Sample.root Sample.id_file "Sa" (inr ["Cipro"])
    (Some (LabelEncoder.as_encoder DRIAMSLabelEncoder)) "keep"
  = OK {| columns := Sample.header;
          rows := [[Str "A1"; Str "MALDI"; Str "Sa"; Num 0];
                   [Str "A2"; Str "MALDI"; Str "Sa"; NaN];
                   [Str "A3"; Str "MALDI"; Str "Sa"; NaN]] |}.
Proof. by vm_compute. Qed.

(** A policy outside the three names fails the assertion, and an antibiotic
    that the table does not have is a [KeyError]. *)
Example unknown_policy_raises :
  _load_metadata Sample.root Sample.id_file "Sa" (inl "Cipro") None "drop"
  = Raise AssertionError.
Proof. by vm_compute. Qed.

Example unknown_antibiotic_raises :
  _load_metadata Sample.root Sample.id_file "Sa" (inl "Penicillin") None "keep"
  = Raise (KeyError "Penicillin").
Proof. by vm_compute. Qed.

(** ** The label encoder *)

Lemma driams_encodings_outside (s : string) :
  s ∉ vocabulary → LabelEncoder.encodings DRIAMSLabelEncoder !! s = None.
Proof. intros Hs. by apply not_elem_of_list_to_map_1. Qed.

Lemma transform_lookup (self : LabelEncoder.t) (df : DataFrame) (j i : nat) :
  (rows (LabelEncoder.transform self df) !! j) ≫= (.!! i) =
  (λ c, match columns df !! i with
        | Some name =>
            if decide (name ∈ LabelEncoder.ignore_columns self) then c
            else LabelEncoder.encode self c
        | None => c
        end) <$> ((rows df !! j) ≫= (.!! i)).
Proof.
  unfold LabelEncoder.transform. cbn [rows]. rewrite list_lookup_fmap.
  destruct (rows df !! j) as [r|]; simpl; [|done].
  by rewrite list_lookup_imap.
Qed.

(** C3.  The default encoder maps [R] and [I] to 1 and [S] to 0, maps every
    compound or low-confidence token to the missing marker, and leaves every
    value outside its vocabulary as it is.  On a table it raises nothing,
    keeps the header and the number of rows, leaves every cell of the columns
    [code], [bruker_organism_best_match] and [species] unchanged and encodes
    every other cell. *)
Theorem driams_label_encoder (df : DataFrame) :
  LabelEncoder.encode DRIAMSLabelEncoder (Str "R") = Num 1 ∧
  LabelEncoder.encode DRIAMSLabelEncoder (Str "I") = Num 1 ∧
  LabelEncoder.encode DRIAMSLabelEncoder (Str "S") = Num 0 ∧
  (∀ s, s ∈ compound_tokens → LabelEncoder.encode DRIAMSLabelEncoder (Str s) = NaN) ∧
  (∀ c, (∀ s, c = Str s → s ∉ vocabulary) →
        LabelEncoder.encode DRIAMSLabelEncoder c = c) ∧
  ∃ df', fit_transform (LabelEncoder.as_encoder DRIAMSLabelEncoder) df = OK df' ∧
    columns df' = columns df ∧
    length (rows df') = length (rows df) ∧
    ∀ j i c name,
      (rows df !! j) ≫= (.!! i) = Some c → columns df !! i = Some name →
      (rows df' !! j) ≫= (.!! i) =
        Some (if decide (name ∈ ["code"; "bruker_organism_best_match"; "species"])
              then c else LabelEncoder.encode DRIAMSLabelEncoder c).
Proof.
  split_and!; try by vm_compute.
  - intros s Hs. unfold compound_tokens in Hs.
    repeat (apply elem_of_cons in Hs as [->|Hs]; [by vm_compute|]).
    by apply elem_of_nil in Hs.
  - intros [|s|n] Hc; [done| |done]. simpl.
    by rewrite driams_encodings_outside by by apply Hc.
  - eexists. split; [done|]. split; [done|]. split.
    { simpl. by rewrite length_fmap. }
    intros j i c name Hc Hname. rewrite transform_lookup, Hc, Hname. done.
Qed.

(** ** Site validation *)

Lemma resolve_app (fs : node) (p q : path) :
  resolve fs (p ++ q) = resolve fs p ≫= λ n, resolve n q.
Proof.
  revert fs. induction p as [|name p IH]; intros fs; [done|].
  simpl. destruct fs as [f|es]; [done|].
  destruct (entry name es) as [child|]; simpl; [apply IH|done].
Qed.

Lemma os_walk_not_dir (fs : node) (p : path) :
  isdir fs p = false → os_walk fs p = [].
Proof.
  unfold isdir, os_walk. by destruct (resolve fs p) as [[f|es]|].
Qed.

Lemma isdir_app (fs : node) (p q : path) :
  q ≠ [] → isdir fs p = false → isdir fs (p ++ q) = false.
Proof.
  unfold isdir. rewrite resolve_app. intros Hq.
  destruct (resolve fs p) as [[f|es]|]; simpl; [|done..].
  by destruct q.
Qed.

Lemma check_id_files_fold (w : list (path * list string * list string))
    (st : nat * list path) :
  foldl DRIAMSDatasetExplorer._check_id_files_step st w =
    (st.1 + walk_n_dirs w, st.2 ++ walk_filenames w).
Proof.
  revert st. induction w as [|[[root dirs] files] w IH]; intros [n fs'].
  - simpl. by rewrite Nat.add_0_r, app_nil_r.
  - cbn [foldl]. rewrite IH. unfold walk_n_dirs, walk_filenames. simpl.
    f_equal; [by rewrite <- Nat.add_assoc | by rewrite <- app_assoc].
Qed.

Lemma check_id_files_spec (fs : node) (id_directory : path) :
  DRIAMSDatasetExplorer._check_id_files fs id_directory = true ↔
  walk_n_dirs (os_walk fs id_directory)
    = length (walk_filenames (os_walk fs id_directory)) ∧
  Forall (λ f, DRIAMSDatasetExplorer._is_id_valid fs f = true)
    (walk_filenames (os_walk fs id_directory)).
Proof.
  unfold DRIAMSDatasetExplorer._check_id_files.
  rewrite check_id_files_fold. simpl.
  case_decide as Hn; [split; [done | by intros [? _]]|].
  rewrite bool_decide_eq_true. split.
  - intros Hv. split; [done|]. apply Forall_forall. intros f Hf.
    destruct (DRIAMSDatasetExplorer._is_id_valid fs f) eqn:E; [done|].
    exfalso. apply Hv. rewrite <- E. by apply list_elem_of_fmap_2.
  - intros [_ Hv] (f & Hf & Hin)%list_elem_of_fmap.
    rewrite Forall_forall in Hv. specialize (Hv f Hin). congruence.
Qed.

Lemma is_id_valid_spec (fs : node) (id_file : path) :
  DRIAMSDatasetExplorer._is_id_valid fs id_file = true ↔
  ∃ df, pd_read_csv fs id_file [] = OK df ∧ "code" ∈ columns df.
Proof.
  unfold DRIAMSDatasetExplorer._is_id_valid. split.
  - destruct (resolve fs id_file); [|done].
    destruct (pd_read_csv fs id_file []) as [df|]; [|done].
    case_decide as Hc; [done|]. eauto.
  - intros (df & Hdf & Hc). unfold pd_read_csv in Hdf.
    destruct (resolve fs id_file) eqn:E; [|done].
    unfold pd_read_csv. rewrite E, Hdf. by rewrite decide_False by auto.
Qed.

(** C10.  When the site's directory does not exist under the root, the walk
    over it yields nothing, the layout checks are skipped, and the check of
    the identifier files compares zero directories with zero files: the site
    is reported valid. *)
Theorem missing_site_is_valid (fs : node) (root : path) (site : string) :
  isdir fs (root ++ [site]) = false →
  os_walk fs (root ++ [site]) = [] ∧
  walk_n_dirs (os_walk fs ((root ++ [site]) ++ ["id"])) = 0 ∧
  walk_filenames (os_walk fs ((root ++ [site]) ++ ["id"])) = [] ∧
  DRIAMSDatasetExplorer._is_site_valid fs root site = true.
Proof.
  intros Hno.
  assert (Hid : os_walk fs ((root ++ [site]) ++ ["id"]) = []).
  { apply os_walk_not_dir. by apply isdir_app. }
  rewrite Hid. split_and!; [by apply os_walk_not_dir | done | done |].
  unfold DRIAMSDatasetExplorer._is_site_valid.
  rewrite (os_walk_not_dir _ _ Hno). simpl.
  unfold DRIAMSDatasetExplorer._check_id_files. by rewrite Hid.
Qed.

(** C10 at the sample root, which has no site [DRIAMS-B]. *)
Lemma missing_site_is_valid_witness :
  os_walk Sample.root ([] ++ ["DRIAMS-B"]) = [] ∧
  walk_n_dirs (os_walk Sample.root (([] ++ ["DRIAMS-B"]) ++ ["id"])) = 0 ∧
  walk_filenames (os_walk Sample.root (([] ++ ["DRIAMS-B"]) ++ ["id"])) = [] ∧
  DRIAMSDatasetExplorer._is_site_valid Sample.root [] "DRIAMS-B" = true.
Proof. apply (missing_site_is_valid Sample.root [] "DRIAMS-B"). reflexivity. Defined.

Lemma os_walk_dir (fs : node) (p : path) :
  isdir fs p = true →
  ∃ files rest, os_walk fs p = (p, listdirs fs p, files) :: rest.
Proof.
  unfold isdir, os_walk, listdirs.
  destruct (resolve fs p) as [[f|es]|]; [done| |done]. simpl. eauto.
Qed.

(** The check of one identifier file accepts exactly the paths at which the
    tree holds a file whose contents parse as a table with a [code] column:
    an absent path, a directory, contents that do not parse and a header
    without [code] are all refused. *)
Lemma is_id_valid_id_table (fs : node) (id_file : path) :
  DRIAMSDatasetExplorer._is_id_valid fs id_file = id_table_at fs id_file.
Proof.
  unfold DRIAMSDatasetExplorer._is_id_valid, id_table_at, pd_read_csv.
  destruct (resolve fs id_file) as [[f|es]|]; [|done..].
  unfold id_table. destruct (csv f) as [[header body]|]; [|done].
  cbn [columns]. destruct (decide ("code" ∉ header)) as [Hc|Hc].
  - by rewrite bool_decide_eq_false_2.
  - rewrite bool_decide_eq_true_2; [done|]. by apply dec_stable.
Qed.

(** X6.  For a site whose directory exists, the check is false exactly on a
    structural deviation: no [id] subdirectory, neither [preprocessed] nor
    [raw], as many directories under [id] as not as non-hidden files, or a
    file found there whose contents do not parse as a table with a [code]
    column. *)
Lemma existing_site_invalid_iff (fs : node) (root : path) (site : string) :
  isdir fs (root ++ [site]) = true →
  DRIAMSDatasetExplorer._is_site_valid fs root site = false ↔
  structural_deviation fs root site.
Proof.
  intros (files & rest & Hw)%os_walk_dir.
  unfold DRIAMSDatasetExplorer._is_site_valid, structural_deviation.
  rewrite Hw. cbn [DRIAMSDatasetExplorer._site_layout].
  set (dirs := listdirs fs (root ++ [site])).
  set (w := os_walk fs ((root ++ [site]) ++ ["id"])).
  destruct (decide ("id" ∉ dirs)) as [Hid|Hid]; [by split; [left|]|].
  destruct (decide (("preprocessed" ∉ dirs) ∧ ("raw" ∉ dirs))) as [Hsp|Hsp];
    [by split; [right; left|]|].
  pose proof (check_id_files_spec fs ((root ++ [site]) ++ ["id"])) as Hc.
  fold w in Hc.
  destruct (DRIAMSDatasetExplorer._check_id_files fs _) eqn:E; simpl.
  - split; [done|]. apply proj1 in Hc. destruct (Hc eq_refl) as [Hn Hv].
    intros [?|[?|[?|Hex]]]; [done..|].
    apply Exists_exists in Hex as (f & Hf & Hinv).
    rewrite Forall_forall in Hv. specialize (Hv f Hf).
    rewrite is_id_valid_id_table in Hv. congruence.
  - split; [|done]. intros _. right. right.
    destruct (decide (walk_n_dirs w = length (walk_filenames w))) as [Hn|Hn];
      [|by left].
    right.
    assert (Hv : ¬ Forall (λ f, DRIAMSDatasetExplorer._is_id_valid fs f = true)
                   (walk_filenames w)).
    { intros Hv. assert (false = true) as [=]. by apply Hc. }
    apply not_Forall_Exists in Hv; [|apply _].
    eapply Exists_impl; [exact Hv|]. simpl. intros f Hf.
    rewrite <- is_id_valid_id_table.
    by destruct (DRIAMSDatasetExplorer._is_id_valid fs f).
Qed.

(** The sample site is valid; a site without an [id] directory is not. *)
Example sample_site_valid :
  DRIAMSDatasetExplorer._is_site_valid Sample.root [] "DRIAMS-A" = true.
Proof. by vm_compute. Qed.

Example site_without_id_invalid :
  DRIAMSDatasetExplorer._is_site_valid
    (Dir [("DRIAMS-C", Dir [("raw", Dir [])])]) [] "DRIAMS-C" = false.
Proof. by vm_compute. Qed.

(** C4 fails at a site whose directory does not exist: the [id]
    subdirectory is absent, yet the site is reported valid. *)
Theorem missing_site_not_rejected :
  isdir Sample.root ([] ++ ["DRIAMS-B"]) = false ∧
  ("id" ∉ listdirs Sample.root ([] ++ ["DRIAMS-B"])) ∧
  structural_deviation Sample.root [] "DRIAMS-B" ∧
  DRIAMSDatasetExplorer._is_site_valid Sample.root [] "DRIAMS-B" = true.
Proof.
  split_and!; [done| | |done].
  - vm_compute. by intros ?%elem_of_nil.
  - left. vm_compute. by intros ?%elem_of_nil.
Qed.

(** ** The dataset entity *)

(** C7.  The constructor succeeds, keeping the spectra and the table it was
    given, when their counts agree, and fails on its assertion when they
    differ. *)
Theorem dataset_init_checks_shape (X : list MaldiTofSpectrum) (y : DataFrame) :
  (length X = shape0 y →
     DRIAMSDataset.__init__ X y = OK {| DRIAMSDataset.X := X; DRIAMSDataset.y := y |}) ∧
  (length X ≠ shape0 y → DRIAMSDataset.__init__ X y = Raise AssertionError) ∧
  ((∃ d, DRIAMSDataset.__init__ X y = OK d) ↔ length X = shape0 y).
Proof.
  unfold DRIAMSDataset.__init__.
  destruct (decide (length X = shape0 y)) as [Heq|Hne].
  - rewrite bool_decide_eq_true_2 by done. simpl. split_and!; [done|done|].
    split; eauto.
  - rewrite bool_decide_eq_false_2 by done. simpl. split_and!; [done|done|].
    split; [by intros [d [=]]|done].
Qed.

Lemma is_multitask_always (d : DRIAMSDataset.t) : DRIAMSDataset.is_multitask d = true.
Proof. done. Qed.

(** C9 fails on a dataset with exactly one label column: the property
    compares the list of label columns, not its length, with [1], and a list
    never equals an integer, so the property is true. *)
Theorem is_multitask_single_label :
  List.filter (λ c, bool_decide (c ∉ _metadata_columns))
    (columns (DRIAMSDataset.y Sample.single_label)) = ["Cipro"] ∧
  DRIAMSDataset.is_multitask Sample.single_label = true.
Proof. split; by vm_compute. Qed.

(** ** Loading a dataset *)

Lemma load_driams_dataset_eq fs root site year species antibiotics encoder policy
    load_raw :
  load_driams_dataset fs root site year species antibiotics encoder policy load_raw =
    (metadata ← _load_metadata fs (id_file root site year) species antibiotics
                  encoder policy;
     codes ← attr_code metadata;
     spectra ← comprehension
                 (λ c, Build_MaldiTofSpectrum <$>
                         read_spectrum fs (spectrum_file root site year load_raw c))
                 codes;
     OK (spectra, metadata)).
Proof.
  unfold load_driams_dataset, id_file, spectrum_file.
  destruct (_load_metadata _ _ _ _ _ _) as [metadata|]; simpl; [|done].
  destruct (attr_code metadata) as [codes|]; simpl; [|done].
  assert (∀ (f : cell → path) g, comprehension g (f <$> codes)
            = comprehension (g ∘ f) codes) as ->; [|done].
  intros f g. induction codes as [|c codes IH]; [done|].
  rewrite fmap_cons. simpl. by rewrite IH.
Qed.

(** X14.  What a successful call returns: the table of [_load_metadata]
    and, in the order of its rows, the spectra read from the files named by
    its codes. *)
Lemma load_driams_dataset_aligned fs root site year species antibiotics encoder
    policy load_raw spectra metadata i :
  load_driams_dataset fs root site year species antibiotics encoder policy load_raw
    = OK (spectra, metadata) →
  positions "code" (columns metadata) = [i] →
  _load_metadata fs (id_file root site year) species antibiotics encoder policy
    = OK metadata ∧
  length spectra = shape0 metadata ∧
  ∀ j r, rows metadata !! j = Some r →
    ∃ s, spectra !! j = Some s ∧
         read_spectrum fs (spectrum_file root site year load_raw (at_pos r i))
           = OK (values s).
Proof.
  rewrite load_driams_dataset_eq. intros H Hcode.
  apply bind_OK in H as (md & Hmd & H).
  apply bind_OK in H as (codes & Hcodes & H).
  apply bind_OK in H as (sp & Hsp & [= <- <-]).
  unfold attr_code in Hcodes. rewrite Hcode in Hcodes. injection Hcodes as <-.
  split; [done|]. split.
  { apply comprehension_length in Hsp. by rewrite Hsp, length_fmap. }
  intros j r Hr. apply comprehension_OK in Hsp.
  destruct (Forall2_lookup_l _ _ _ j (at_pos r i) Hsp) as (s & Hs & Hread).
  { by rewrite list_lookup_fmap, Hr. }
  exists s. split; [done|].
  apply fmap_OK in Hread as (v & Hv & ->). done.
Qed.

(** C5 fails on every successful call: what is returned is the pair of the
    spectra and the table, the arguments from which a [DRIAMSDataset] could
    be built, and not the entity; at the sample site the pair is aligned. *)
Theorem load_returns_a_pair :
  ∃ spectra metadata d,
    load_driams_dataset Sample.root [] "DRIAMS-A" "2015" "Sa" (inl "Cipro") None
      "remove_if_any_missing" false = OK (spectra, metadata) ∧
    DRIAMSDataset.__init__ spectra metadata = OK d ∧
    length spectra = shape0 metadata ∧
    metadata = {| columns := Sample.header;
                  rows := [[Str "A1"; Str "MALDI"; Str "Sa"; Str "S"];
                           [Str "A2"; Str "MALDI"; Str "Sa"; Str "R(1)"]] |} ∧
    spectra = [ {| values := [[2000; 7]; [2003; 9]]%Z |};
                {| values := [[2000; 1]]%Z |} ].
Proof.
  do 3 eexists. split; [vm_compute; reflexivity|].
  split; [vm_compute; reflexivity|]. done.
Qed.




(** ** Available antibiotics *)

Lemma comprehension_if_first_isupper (ucd : unicode_data) (cols : list string) :
  Forall (λ c, c ≠ "") cols →
  comprehension_if (first_isupper ucd) cols = OK (List.filter (starts_upper ucd) cols).
Proof.
  induction 1 as [|c cols Hc _ IH]; [done|].
  simpl. rewrite IH. by destruct c.
Qed.

Lemma filter_filter_andb {A} (p q : A → bool) (l : list A) :
  List.filter q (List.filter p l) = List.filter (λ x, p x && q x) l.
Proof.
  induction l as [|x l IH]; [done|]. simpl.
  destruct (p x); simpl; [destruct (q x)|]; by rewrite IH.
Qed.

(** C8.  For a site and year whose identifier table reads as [df], with no
    empty column name (as [read_csv] delivers it), the query returns the
    column names that begin with an upper-case character and are no
    placeholder, each as often as it occurs, in ascending order; on the
    header [code, bruker_organism_best_match, species, Ciprofloxacin,
    Unnamed: 7] this is [Ciprofloxacin].  Upper case is what [str.isupper]
    says of the first character: the capital letters within ASCII, and
    beyond ASCII what the character database of the interpreter says,
    whichever database that is. *)
Theorem available_antibiotics_sorted (fs : node) (ucd : unicode_data) (root : path)
    (site year : string) (df : DataFrame) :
  pd_read_csv fs (id_file root site year) [] = OK df →
  Forall (λ c, c ≠ "") (columns df) →
  ∃ l,
    DRIAMSDatasetExplorer._get_available_antibiotics fs ucd root site year = OK l ∧
    l ≡ₚ List.filter (λ c, starts_upper ucd c && negb (is_placeholder c)) (columns df) ∧
    StronglySorted String.le l ∧
    (columns df = ["code"; "bruker_organism_best_match"; "species";
                   "Ciprofloxacin"; "Unnamed: 7"] → l = ["Ciprofloxacin"]).
Proof.
  intros Hread Hne. unfold DRIAMSDatasetExplorer._get_available_antibiotics.
  unfold id_file in Hread. rewrite Hread. cbn [mbind result_bind].
  rewrite (comprehension_if_first_isupper _ _ Hne). cbn [mbind result_bind].
  rewrite filter_filter_andb. eexists. split; [done|]. split_and!.
  - apply merge_sort_Permutation.
  - apply StronglySorted_merge_sort; apply _.
  - intros ->. by vm_compute.
Qed.

(** C8 at a site whose table of 2016 has the header of the example. *)
Lemma available_antibiotics_sorted_witness :
  DRIAMSDatasetExplorer._get_available_antibiotics Sample.root_2016 Sample.ucd []
    "DRIAMS-A" "2016" = OK ["Ciprofloxacin"].
Proof.
  destruct (available_antibiotics_sorted Sample.root_2016 Sample.ucd [] "DRIAMS-A" "2016"
              {| columns := ["code"; "bruker_organism_best_match"; "species";
                             "Ciprofloxacin"; "Unnamed: 7"];
                 rows := [] |})
    as (l & Hl & _ & _ & Hexample).
  - vm_compute. reflexivity.
  - by_compute.
  - rewrite Hl. f_equal. by apply Hexample.
Defined.

(** A name with an accented capital is listed, after the ASCII names, when
    the character database knows the capital; a name with an accented
    lower-case initial is not. *)
Example accented_antibiotic_listed :
  DRIAMSDatasetExplorer._get_available_antibiotics Sample.root_2017 Sample.ucd []
    "DRIAMS-A" "2017" = OK ["Cipro"; "Érythromycine"].
Proof. by vm_compute. Qed.


(** * Further properties of the module *)

(** ** Discovery *)

Lemma sorted_dirs (dirs : list string) :
  StronglySorted String.le (merge_sort String.le dirs) ∧
  merge_sort String.le dirs ≡ₚ dirs.
Proof.
  split; [apply StronglySorted_merge_sort; apply _ | apply merge_sort_Permutation].
Qed.

(** X1.  When the root is a directory the available sites are the names of
    its subdirectories in ascending order; when it is not, the query reads
    the unbound local [sites]. *)
Theorem available_sites_sorted (fs : node) (root : path) :
  (isdir fs root = true →
     ∃ sites, DRIAMSDatasetExplorer.available_sites fs root = Found sites ∧
       StronglySorted String.le sites ∧ sites ≡ₚ listdirs fs root) ∧
  (isdir fs root = false →
     DRIAMSDatasetExplorer.available_sites fs root = UnboundLocalError "sites").
Proof.
  unfold DRIAMSDatasetExplorer.available_sites,
    DRIAMSDatasetExplorer._get_available_sites. split.
  - intros (files & rest & ->)%os_walk_dir. eexists. split; [done|].
    apply sorted_dirs.
  - intros ->%os_walk_not_dir. done.
Qed.

(** X2.  For a site whose directory exists and that the validity check
    accepts, the available years are the names of the subdirectories of the
    site directory itself, in ascending order: [id] is among them, and so is
    [preprocessed] or [raw]. *)
Theorem available_years_of_valid_site (fs : node) (root : path) (site : string) :
  isdir fs (root ++ [site]) = true →
  DRIAMSDatasetExplorer._is_site_valid fs root site = true →
  ∃ years,
    DRIAMSDatasetExplorer.available_years fs root site = Found years ∧
    StronglySorted String.le years ∧
    years ≡ₚ listdirs fs (root ++ [site]) ∧
    "id" ∈ years ∧ ("preprocessed" ∈ years ∨ "raw" ∈ years).
Proof.
  intros (files & rest & Hw)%os_walk_dir.
  unfold DRIAMSDatasetExplorer._is_site_valid,
    DRIAMSDatasetExplorer.available_years,
    DRIAMSDatasetExplorer._get_available_years.
  rewrite Hw. cbn [DRIAMSDatasetExplorer._site_layout].
  set (dirs := listdirs fs (root ++ [site])).
  destruct (sorted_dirs dirs) as [Hs Hp].
  destruct (decide ("id" ∉ dirs)) as [|Hid]; [done|].
  destruct (decide (("preprocessed" ∉ dirs) ∧ ("raw" ∉ dirs))) as [|Hsp]; [done|].
  intros _. eexists. split; [done|]. split; [done|]. split; [done|].
  rewrite !Hp. split; [by apply dec_stable|].
  destruct (decide ("preprocessed" ∈ dirs)); [by left|].
  right. apply dec_stable. intros ?. by apply Hsp.
Qed.

(** X2 at the sample site. *)
Lemma available_years_of_valid_site_witness :
  ∃ years,
    DRIAMSDatasetExplorer.available_years Sample.root [] "DRIAMS-A" = Found years ∧
    StronglySorted String.le years ∧
    years ≡ₚ listdirs Sample.root ([] ++ ["DRIAMS-A"]) ∧
    "id" ∈ years ∧ ("preprocessed" ∈ years ∨ "raw" ∈ years).
Proof.
  apply (available_years_of_valid_site Sample.root [] "DRIAMS-A").
  - reflexivity.
  - vm_compute. reflexivity.
Defined.

(** X3.  For a site without a directory the queries for its years and for
    its antibiotics both read the unbound local [years]. *)
Theorem missing_site_years_unbound (fs : node) (ucd : unicode_data) (root : path)
    (site : string) :
  isdir fs (root ++ [site]) = false →
  DRIAMSDatasetExplorer.available_years fs root site = UnboundLocalError "years" ∧
  DRIAMSDatasetExplorer.available_antibiotics fs ucd root site
    = UnboundLocalError "years".
Proof.
  intros Hw%os_walk_not_dir.
  unfold DRIAMSDatasetExplorer.available_antibiotics,
    DRIAMSDatasetExplorer.available_years,
    DRIAMSDatasetExplorer._get_available_years.
  by rewrite Hw.
Qed.

(** X3 at the sample root, which has no site [DRIAMS-B]. *)
Lemma missing_site_years_unbound_witness :
  DRIAMSDatasetExplorer.available_years Sample.root [] "DRIAMS-B"
    = UnboundLocalError "years" ∧
  DRIAMSDatasetExplorer.available_antibiotics Sample.root Sample.ucd [] "DRIAMS-B"
    = UnboundLocalError "years".
Proof. apply (missing_site_years_unbound Sample.root Sample.ucd [] "DRIAMS-B"). reflexivity. Defined.

(** X4.  The antibiotics of a site are read per available year, and the
    years are the subdirectories of the site directory.  So for a site with
    an [id] subdirectory and no table at [id/id/id_clean.csv], the query
    raises: what it raises is the error of its first year whose table cannot
    be read. *)
Theorem available_antibiotics_raises (fs : node) (ucd : unicode_data) (root : path)
    (site : string) :
  isdir fs (root ++ [site]) = true →
  "id" ∈ listdirs fs (root ++ [site]) →
  resolve fs (id_file root site "id") = None →
  ∃ year e,
    year ∈ listdirs fs (root ++ [site]) ∧
    DRIAMSDatasetExplorer._get_available_antibiotics fs ucd root site year = Raise e ∧
    DRIAMSDatasetExplorer.available_antibiotics fs ucd root site = Raised e.
Proof.
  intros (files & rest & Hw)%os_walk_dir Hid Hnone.
  unfold DRIAMSDatasetExplorer.available_antibiotics,
    DRIAMSDatasetExplorer.available_years,
    DRIAMSDatasetExplorer._get_available_years.
  rewrite Hw. set (dirs := listdirs fs (root ++ [site])) in *.
  destruct (sorted_dirs dirs) as [_ Hp].
  destruct (comprehension_first_Raise
      (λ year, pair year <$>
         DRIAMSDatasetExplorer._get_available_antibiotics fs ucd root site year)
      (merge_sort String.le dirs) "id" (FileNotFoundError (id_file root site "id")))
    as (year & e & Hyear & Hf & ->).
  - by rewrite Hp.
  - unfold DRIAMSDatasetExplorer._get_available_antibiotics, pd_read_csv.
    unfold id_file in Hnone. by rewrite Hnone.
  - exists year, e. rewrite Hp in Hyear. split; [done|]. split; [|done].
    by destruct (DRIAMSDatasetExplorer._get_available_antibiotics fs ucd root site year);
      simplify_eq/=.
Qed.

(** X4 at the sample site, laid out as [id/2015/2015_clean.csv]. *)
Lemma available_antibiotics_raises_witness :
  ∃ year e,
    year ∈ listdirs Sample.root ([] ++ ["DRIAMS-A"]) ∧
    DRIAMSDatasetExplorer._get_available_antibiotics Sample.root Sample.ucd [] "DRIAMS-A" year
      = Raise e ∧
    DRIAMSDatasetExplorer.available_antibiotics Sample.root Sample.ucd [] "DRIAMS-A" = Raised e.
Proof.
  apply (available_antibiotics_raises Sample.root Sample.ucd [] "DRIAMS-A").
  - reflexivity.
  - by_compute.
  - reflexivity.
Defined.

Lemma lookup_keyed_map {V} (g : string → V) (keys : list string) (k : string) :
  (list_to_map ((λ y, (y, g y)) <$> keys) : gmap string V) !! k
  = if decide (k ∈ keys) then Some (g k) else None.
Proof.
  induction keys as [|y keys IH].
  - rewrite fmap_nil, list_to_map_nil, lookup_empty.
    destruct (decide (k ∈ [])) as [H|]; [by apply elem_of_nil in H | done].
  - rewrite fmap_cons, list_to_map_cons.
    destruct (decide (y = k)) as [->|Hne].
    + rewrite lookup_insert_eq.
      destruct (decide (k ∈ k :: keys)) as [|H]; [done|]. exfalso. apply H. left.
    + rewrite lookup_insert_ne by done. rewrite IH.
      destruct (decide (k ∈ keys)) as [Hin|Hnin];
        destruct (decide (k ∈ y :: keys)) as [H|H]; try done.
      * exfalso. apply H. by right.
      * apply elem_of_cons in H as [->|?]; done.
Qed.

(** X5.  When the tables of all available years of a site can be read, the
    query returns a dictionary whose keys are exactly the available years and
    whose value at a year is what [_get_available_antibiotics] returns for
    that year. *)
Theorem available_antibiotics_found (fs : node) (ucd : unicode_data) (root : path)
    (site : string) (years : list string) :
  DRIAMSDatasetExplorer.available_years fs root site = Found years →
  (∀ year, year ∈ years →
     ∃ l, DRIAMSDatasetExplorer._get_available_antibiotics fs ucd root site year = OK l) →
  ∃ d,
    DRIAMSDatasetExplorer.available_antibiotics fs ucd root site = Found d ∧
    ∀ year l,
      d !! year = Some l ↔
      year ∈ years ∧
      DRIAMSDatasetExplorer._get_available_antibiotics fs ucd root site year = OK l.
Proof.
  intros Hyears Hall.
  unfold DRIAMSDatasetExplorer.available_antibiotics. rewrite Hyears.
  set (gaa := DRIAMSDatasetExplorer._get_available_antibiotics fs ucd root site) in *.
  set (g := λ year, match gaa year with OK l => l | Raise _ => [] end).
  assert (Hitems : comprehension (λ year, pair year <$> gaa year) years
                   = OK ((λ y, (y, g y)) <$> years)).
  { apply comprehension_OK. clear Hyears.
    induction years as [|y years IH]; [constructor|].
    rewrite fmap_cons. constructor.
    - destruct (Hall y) as [l Hl]; [left|]. unfold g. by rewrite Hl.
    - apply IH. intros y' Hy'. apply Hall. by right. }
  rewrite Hitems. eexists. split; [done|].
  intros year l. rewrite lookup_keyed_map.
  destruct (decide (year ∈ years)) as [Hin|Hnin].
  - destruct (Hall year Hin) as [l' Hl']. unfold g. rewrite Hl'. split.
    + by intros [= <-].
    + by intros [_ [= <-]].
  - split; [done|]. by intros [? _].
Qed.

(** X5 at a site whose only subdirectory is [id], with a table at
    [id/id/id_clean.csv]. *)
Lemma available_antibiotics_found_witness :
  ∃ d,
    DRIAMSDatasetExplorer.available_antibiotics Sample.root_nested Sample.ucd [] "DRIAMS-N"
      = Found d ∧
    ∀ year l,
      d !! year = Some l ↔
      year ∈ ["id"] ∧
      DRIAMSDatasetExplorer._get_available_antibiotics Sample.root_nested Sample.ucd []
        "DRIAMS-N" year = OK l.
Proof.
  apply (available_antibiotics_found Sample.root_nested Sample.ucd [] "DRIAMS-N" ["id"]).
  - vm_compute. reflexivity.
  - intros year ->%list_elem_of_singleton. eexists. vm_compute. reflexivity.
Defined.

(** ** Validation of a well-formed site *)

Lemma entry_NoDup (es : list (string * node)) (n : string) (c : node) :
  NoDup es.*1 → (n, c) ∈ es → entry n es = Some c.
Proof.
  induction es as [|[n' c'] es IH]; [by intros _ ?%elem_of_nil|].
  rewrite fmap_cons. cbn [fst]. intros [Hn' Hnd]%NoDup_cons Hin. cbn [entry].
  apply elem_of_cons in Hin as [[= <- <-]|Hin].
  - by rewrite decide_True.
  - rewrite decide_False; [by apply IH|].
    intros ->. apply Hn'. by apply (list_elem_of_fmap_2 fst) in Hin.
Qed.

(** The one visible entry of a directory is the entry found under its name. *)
Lemma entry_visible (es : list (string * node)) (e : string * node) :
  List.filter (λ e', negb (startswith "." e'.1)) es = [e] →
  entry e.1 es = Some e.2 ∧
  List.filter (λ f, negb (startswith "." f)) es.*1 = [e.1].
Proof.
  induction es as [|[n c] es IH]; [done|].
  cbn [List.filter fst]. rewrite fmap_cons. cbn [List.filter fst entry].
  destruct (negb (startswith "." n)) eqn:Hvis.
  - intros [= <- Hrest]. cbn [fst snd]. rewrite decide_True by done.
    split; [done|]. f_equal.
    clear IH. induction es as [|[n' c'] es IH]; [done|].
    cbn [List.filter fst] in Hrest. rewrite fmap_cons. cbn [List.filter fst].
    destruct (negb (startswith "." n')); [done|by apply IH].
  - intros Hrest. destruct (IH Hrest) as [He Hf]. split; [|done].
    rewrite decide_False; [done|]. intros ->.
    assert (e ∈ List.filter (λ e', negb (startswith "." e'.1)) es) as Hin.
    { rewrite Hrest. left. }
    apply list_elem_of_In, filter_In in Hin as [_ Hin]. congruence.
Qed.

Lemma specimen_dir_walk (top : path) (n : node) :
  specimen_dir n = true →
  ∃ es e, n = Dir es ∧
    walk_node top n = [(top, [], es.*1)] ∧
    List.filter (λ f, negb (startswith "." f)) es.*1 = [e.1] ∧
    entry e.1 es = Some e.2 ∧ id_table e.2 = true.
Proof.
  destruct n as [f|es]; [done|]. cbn [specimen_dir].
  intros [Hfiles Hone]%andb_true_iff.
  destruct (List.filter _ es) as [|e [|]] eqn:Hvis; [done| |done].
  destruct (entry_visible es e Hvis) as [He Hf].
  exists es, e. split; [done|]. split; [|done].
  cbn [walk_node]. clear Hvis He Hf Hone.
  assert (dirnames es = [] ∧ nondirnames es = es.*1 ∧
          flat_map (λ e, walk_node (top ++ [e.1]) e.2) es = []) as (-> & -> & ->);
    [|done].
  unfold dirnames, nondirnames.
  induction es as [|[n [f|es']] es IH]; [done| |done].
  cbn in Hfiles |- *. destruct (IH Hfiles) as (-> & -> & ->). done.
Qed.

(** The walk over an identifier area whose entries are specimen
    directories: as many directories as visible files, and every file read
    is a table with a [code] column. *)
Lemma specimen_area_checked (fs : node) (id_directory : path)
    (es : list (string * node)) :
  resolve fs id_directory = Some (Dir es) →
  NoDup es.*1 →
  Forall (λ e, specimen_dir e.2 = true) es →
  DRIAMSDatasetExplorer._check_id_files fs id_directory = true.
Proof.
  intros Hres Hnd Hall. apply check_id_files_spec.
  unfold os_walk. rewrite Hres. cbn [walk_node].
  assert (Hdirs : dirnames es = es.*1 ∧ nondirnames es = []).
  { unfold dirnames, nondirnames. clear Hnd Hres.
    induction Hall as [|[n c] es Hc _ [IH1 IH2]]; [done|].
    destruct c as [f|es']; [done|]. cbn. by rewrite IH1, IH2. }
  destruct Hdirs as [-> ->].
  assert (Hsub : ∀ sub, sub ⊆ es →
    let w := flat_map (λ e, walk_node (id_directory ++ [e.1]) e.2) sub in
    walk_n_dirs w = 0 ∧ length (walk_filenames w) = length sub ∧
    Forall (λ f, DRIAMSDatasetExplorer._is_id_valid fs f = true) (walk_filenames w)).
  { intros sub Hsub. induction sub as [|[n c] sub IH]; [done|].
    assert (Hin : (n, c) ∈ es) by (apply Hsub; left).
    destruct IH as (IH1 & IH2 & IH3); [intros x Hx; apply Hsub; by right|].
    rewrite Forall_forall in Hall. specialize (Hall _ Hin). cbn [snd] in Hall.
    destruct (specimen_dir_walk (id_directory ++ [n]) c Hall)
      as (es' & e & -> & Hw & Hvis & He & Htab).
    cbn [flat_map fst snd]. rewrite Hw.
    unfold walk_n_dirs, walk_filenames in *. cbn [app flat_map fmap list_fmap].
    cbn [fst snd sum_list_with sum_list length]. rewrite Hvis.
    cbn [fmap list_fmap app length]. split; [done|]. split; [by rewrite IH2|].
    constructor; [|done].
    apply is_id_valid_spec. unfold pd_read_csv.
    rewrite <- app_assoc. rewrite resolve_app, Hres. cbn [mbind option_bind resolve app].
    rewrite (entry_NoDup es n (Dir es') Hnd Hin). cbn [mbind option_bind].
    rewrite He. cbn [mbind option_bind].
    destruct e as [name [f|?]]; [|done]. cbn [snd id_table] in Htab |- *.
    destruct (csv f) as [[header body]|]; [|done].
    eexists. split; [done|]. cbn [columns]. by apply bool_decide_eq_true in Htab. }
  destruct (Hsub es) as (H1 & H2 & H3); [done|].
  unfold walk_n_dirs, walk_filenames in *. cbn [fmap list_fmap flat_map fst snd].
  cbn [List.filter fmap list_fmap app sum_list_with sum_list].
  split; [|done].
  change (length es.*1 + walk_n_dirs
    (flat_map (λ e, walk_node (id_directory ++ [e.1]) e.2) es) =
    length (walk_filenames (flat_map (λ e, walk_node (id_directory ++ [e.1]) e.2) es))).
  unfold walk_n_dirs, walk_filenames. rewrite H1, H2, length_fmap. lia.
Qed.

(** X6 at a site laid out as intended whose identifier file does not parse:
    the contents found under [id] are a deviation, so the check is false. *)
Lemma existing_site_invalid_iff_witness :
  isdir Sample.root_unparseable ([] ++ ["DRIAMS-D"]) = true ∧
  walk_filenames (os_walk Sample.root_unparseable (([] ++ ["DRIAMS-D"]) ++ ["id"])) =
    [["DRIAMS-D"; "id"; "2015"; "2015_clean.csv"]] ∧
  id_table_at Sample.root_unparseable ["DRIAMS-D"; "id"; "2015"; "2015_clean.csv"] = false ∧
  structural_deviation Sample.root_unparseable [] "DRIAMS-D" ∧
  DRIAMSDatasetExplorer._is_site_valid Sample.root_unparseable [] "DRIAMS-D" = false.
Proof.
  assert (Hdev : structural_deviation Sample.root_unparseable [] "DRIAMS-D").
  { right. right. right. apply Exists_cons_hd. reflexivity. }
  split_and!; [reflexivity | reflexivity | reflexivity | exact Hdev |].
  exact (proj2 (existing_site_invalid_iff Sample.root_unparseable [] "DRIAMS-D"
                  eq_refl) Hdev).
Defined.

(** An identifier table without a [code] column is a deviation as well, and
    the sample site, which has none, is accepted. *)
Example site_without_code_invalid :
  id_table_at Sample.root_no_code ["DRIAMS-E"; "id"; "2015"; "2015_clean.csv"] = false ∧
  DRIAMSDatasetExplorer._is_site_valid Sample.root_no_code [] "DRIAMS-E" = false.
Proof. split; by vm_compute. Qed.

(** X7.  A site laid out as intended is accepted: its directory has an [id]
    subdirectory and [preprocessed] or [raw], and every entry of [id] is a
    specimen directory holding files only, exactly one of them not hidden,
    which reads as a table with a [code] column.  Hidden files do not count,
    and an [id] directory without entries is accepted too. *)
Theorem well_formed_site_valid (fs : node) (root : path) (site : string)
    (es : list (string * node)) :
  isdir fs (root ++ [site]) = true →
  "id" ∈ listdirs fs (root ++ [site]) →
  "preprocessed" ∈ listdirs fs (root ++ [site]) ∨
    "raw" ∈ listdirs fs (root ++ [site]) →
  resolve fs ((root ++ [site]) ++ ["id"]) = Some (Dir es) →
  NoDup es.*1 →
  Forall (λ e, specimen_dir e.2 = true) es →
  DRIAMSDatasetExplorer._is_site_valid fs root site = true.
Proof.
  intros (files & rest & Hw)%os_walk_dir Hid Hsp Hres Hnd Hall.
  unfold DRIAMSDatasetExplorer._is_site_valid.
  rewrite Hw. cbn [DRIAMSDatasetExplorer._site_layout].
  rewrite decide_False by (intros H; by apply H).
  rewrite decide_False by (intros [H1 H2]; by destruct Hsp).
  by rewrite (specimen_area_checked fs _ es Hres Hnd Hall).
Qed.

(** X7 at the sample site, whose [id] holds the specimen directory [2015]. *)
Lemma well_formed_site_valid_witness :
  DRIAMSDatasetExplorer._is_site_valid Sample.root [] "DRIAMS-A" = true.
Proof.
  apply (well_formed_site_valid Sample.root [] "DRIAMS-A"
           [("2015", Dir [("2015_clean.csv", File Sample.clean_2015)])]).
  - reflexivity.
  - by_compute.
  - left. by_compute.
  - reflexivity.
  - by_compute.
  - by_compute.
Defined.

(** ** More on [_load_metadata] *)

Lemma filter_sublist_impl {A} (p q : A → bool) (l : list A) :
  (∀ x, p x = true → q x = true) →
  List.filter p l `sublist_of` List.filter q l.
Proof.
  intros Hpq. induction l as [|x l IH]; [done|]. cbn [List.filter].
  destruct (p x) eqn:Hp.
  - rewrite (Hpq x Hp). by apply sublist_skip.
  - destruct (q x); [by apply sublist_cons | done].
Qed.

Lemma filter_true {A} (l : list A) : List.filter (λ _, true) l = l.
Proof. induction l as [|x l IH]; [done|]. cbn. by rewrite IH. Qed.

Lemma filter_false {A} (l : list A) : List.filter (λ _, false) l = [].
Proof. by induction l. Qed.

(** What the policy step returns, policy by policy, as a filter of the rows
    that enter it. *)
Lemma handle_missing_values_rows (metadata out : DataFrame) (A : list string)
    (policy : string) :
  handle_missing_values metadata A policy = OK out →
  columns out = columns metadata ∧
  rows out =
    List.filter
      (λ r, let n := length (List.filter isna
                       (at_pos r <$> concat (flip positions (columns metadata) <$> A))) in
            if decide (policy = "remove_if_all_missing")
            then bool_decide (n ≠ length A)
            else if decide (policy = "remove_if_any_missing")
                 then bool_decide (n = 0) else true)
      (rows metadata).
Proof.
  unfold handle_missing_values.
  destruct (decide (policy = "remove_if_all_missing")) as [->|Hall].
  { rewrite masked_branch. by intros (_ & _ & [= <-])%bind_OK. }
  destruct (decide (policy = "remove_if_any_missing")) as [->|Hany].
  { rewrite masked_branch. by intros (_ & _ & [= <-])%bind_OK. }
  intros [= <-]. by rewrite filter_true.
Qed.

Lemma load_metadata_steps fs filename species antibiotics encoder policy out :
  _load_metadata fs filename species antibiotics encoder policy = OK out →
  ∃ entering,
    entering_policy fs filename species (as_list antibiotics) encoder = OK entering ∧
    handle_missing_values entering (as_list antibiotics) policy = OK out.
Proof.
  rewrite _load_metadata_eq.
  intros ([] & _ & (entering & Hent & Hpol)%bind_OK)%bind_OK. eauto.
Qed.

(** X8.  The three policies nest.  For one call's arguments with a
    non-empty request, the rows kept by [remove_if_any_missing] are, in
    order, among those kept by [remove_if_all_missing], which are among those
    returned under [keep]; the header is the same in all three. *)
Theorem policies_nest (fs : node) (filename : path) (species : string)
    (antibiotics : string + list string) (encoder : option Encoder)
    (kept some_value no_missing : DataFrame) :
  as_list antibiotics ≠ [] →
  _load_metadata fs filename species antibiotics encoder "keep" = OK kept →
  _load_metadata fs filename species antibiotics encoder "remove_if_all_missing"
    = OK some_value →
  _load_metadata fs filename species antibiotics encoder "remove_if_any_missing"
    = OK no_missing →
  columns some_value = columns kept ∧ columns no_missing = columns kept ∧
  rows no_missing `sublist_of` rows some_value ∧
  rows some_value `sublist_of` rows kept.
Proof.
  intros Hne (e1 & He1 & Hk)%load_metadata_steps (e2 & He2 & Ha)%load_metadata_steps
    (e3 & He3 & Hb)%load_metadata_steps.
  rewrite He1 in He2, He3. injection He2 as <-. injection He3 as <-.
  apply handle_missing_values_rows in Hk as [Hk1 Hk2], Ha as [Ha1 Ha2],
    Hb as [Hb1 Hb2].
  rewrite Ha1, Hb1, Hk1, Ha2, Hb2, Hk2. split; [done|]. split; [done|].
  split; apply filter_sublist_impl; intros r; simpl; [|done].
  intros ->%bool_decide_eq_true. apply bool_decide_eq_true.
  destruct (as_list antibiotics); done.
Qed.

(** X8 on the sample table encoded by [DRIAMSLabelEncoder]. *)
Lemma policies_nest_witness :
  ∃ kept some_value no_missing,
    (columns some_value = columns kept ∧ columns no_missing = columns kept ∧
     rows no_missing `sublist_of` rows some_value ∧
     rows some_value `sublist_of` rows kept) ∧
    length (rows kept) = 3 ∧ length (rows some_value) = 1.
Proof.
  do 3 eexists. split.
  - eapply (policies_nest Sample.root Sample.id_file "Sa" (inl "Cipro")
              (Some (LabelEncoder.as_encoder DRIAMSLabelEncoder))).
    + done.
    + vm_compute. reflexivity.
    + vm_compute. reflexivity.
    + vm_compute. reflexivity.
  - split; reflexivity.
Defined.

(** X9.  With an empty request [remove_if_all_missing] removes every row
    (no row has a count of missing values different from zero), while
    [remove_if_any_missing] returns what [keep] returns. *)
Theorem empty_request (fs : node) (filename : path) (species : string)
    (encoder : option Encoder) (kept : DataFrame) :
  _load_metadata fs filename species (inr []) encoder "keep" = OK kept →
  _load_metadata fs filename species (inr []) encoder "remove_if_all_missing"
    = OK {| columns := columns kept; rows := [] |} ∧
  _load_metadata fs filename species (inr []) encoder "remove_if_any_missing"
    = OK kept.
Proof.
  intros (ent & Hent & Hk)%load_metadata_steps.
  apply handle_missing_values_rows in Hk as Hk'. cbn [as_list] in *.
  rewrite !_load_metadata_eq. cbn [as_list]. rewrite Hent.
  unfold handle_missing_values in *. cbn -[getitem getitem_mask isna_sum] in Hk |- *.
  injection Hk as <-. rewrite !masked_branch. cbn.
  rewrite filter_false, filter_true. split; [done|]. by destruct ent.
Qed.

(** X9 on the sample table. *)
Lemma empty_request_witness :
  ∃ kept,
    (_load_metadata Sample.root Sample.id_file "Sa" (inr []) None
       "remove_if_all_missing" = OK {| columns := columns kept; rows := [] |} ∧
     _load_metadata Sample.root Sample.id_file "Sa" (inr []) None
       "remove_if_any_missing" = OK kept) ∧
    length (rows kept) = 3.
Proof.
  eexists. split.
  - apply (empty_request Sample.root Sample.id_file "Sa" None).
    vm_compute. reflexivity.
  - reflexivity.
Defined.

Lemma get_indexer_KeyError (cols keys : list string) (k : string) :
  k ∈ keys → k ∉ cols →
  ∃ k', k' ∈ keys ∧ (k' ∉ cols) ∧ get_indexer cols keys = Raise (KeyError k').
Proof.
  intros Hin Hk. unfold get_indexer.
  destruct (comprehension_first_Raise
    (λ k, match positions k cols with [] => Raise (KeyError k) | ps => OK ps end)
    keys k (KeyError k) Hin) as (k' & e & Hk' & Hf & ->).
  { apply positions_nil in Hk. by rewrite Hk. }
  exists k'. split; [done|].
  destruct (positions k' cols) eqn:E; [|done]. injection Hf as <-.
  split; [by apply positions_nil|done].
Qed.

Lemma query_species_OK (df : DataFrame) (species : string) :
  "species" ∈ columns df →
  ∃ q, query_species df species = OK q ∧ columns q = columns df.
Proof.
  intros Hs. unfold query_species.
  destruct (positions "species" (columns df)) eqn:E.
  - by apply positions_nil in E.
  - eexists. split; done.
Qed.

(** X10.  Requesting a column that the identifier table does not have is an
    error, not an empty column: when the table can be read, has a [species]
    column and the policy is one of the three, but a descriptive column or a
    requested antibiotic labels no column, the call raises [KeyError]
    (carrying, in this model, the first such label). *)
Theorem missing_column_raises (fs : node) (filename : path) (species : string)
    (antibiotics : string + list string) (encoder : option Encoder)
    (policy : string) (t : DataFrame) (k : string) :
  policy ∈ ["remove_if_all_missing"; "remove_if_any_missing"; "keep"] →
  pd_read_csv fs filename ["-"] = OK t →
  "species" ∈ columns t →
  k ∈ _metadata_columns ++ as_list antibiotics →
  k ∉ columns t →
  ∃ k', k' ∈ _metadata_columns ++ as_list antibiotics ∧ (k' ∉ columns t) ∧
    _load_metadata fs filename species antibiotics encoder policy
      = Raise (KeyError k').
Proof.
  intros Hpol Hread Hsp Hk Hnk.
  destruct (query_species_OK t species Hsp) as (q & Hq & Hcols).
  destruct (get_indexer_KeyError (columns t) _ k Hk Hnk) as (k' & Hk' & Hnk' & Hidx).
  exists k'. split; [done|]. split; [done|].
  rewrite _load_metadata_eq. rewrite bool_decide_eq_true_2 by done.
  unfold entering_policy. rewrite Hread. cbn [py_assert mbind result_bind].
  rewrite Hq. cbn [mbind result_bind]. unfold getitem. rewrite Hcols, Hidx. done.
Qed.

(** X10 on the sample table, which has no column [Penicillin]. *)
Lemma missing_column_raises_witness :
  ∃ k', k' ∈ _metadata_columns ++ ["Cipro"; "Penicillin"] ∧
    _load_metadata Sample.root Sample.id_file "Sa" (inr ["Cipro"; "Penicillin"])
      None "keep" = Raise (KeyError k').
Proof.
  destruct (missing_column_raises Sample.root Sample.id_file "Sa"
              (inr ["Cipro"; "Penicillin"]) None "keep"
              {| columns := Sample.header;
                 rows := [[Str "A1"; Str "MALDI"; Str "Sa"; Str "S"];
                          [Str "A2"; Str "MALDI"; Str "Sa"; Str "R(1)"];
                          [Str "A3"; Str "MALDI"; Str "Sa"; NaN]] |} "Penicillin")
    as (k' & Hk' & _ & Hload).
  - by_compute.
  - vm_compute. reflexivity.
  - by_compute.
  - by_compute.
  - by_compute.
  - exists k'. by split.
Defined.

Lemma query_species_rows (df q : DataFrame) (species : string) :
  query_species df species = OK q →
  ∃ i ps, positions "species" (columns df) = i :: ps ∧
    ∀ r, r ∈ rows q → r ∈ rows df ∧ at_pos r i = Str species.
Proof.
  unfold query_species.
  destruct (positions "species" (columns df)) as [|i ps]; [done|].
  intros [= <-]. exists i, ps. split; [done|]. intros r Hr.
  rewrite getitem_mask_rows in Hr.
  apply list_elem_of_In, filter_In in Hr as [Hr Hb].
  apply bool_decide_eq_true in Hb. by apply list_elem_of_In in Hr.
Qed.

(** X11.  Without an encoder, and on a table whose labels are pairwise
    distinct, what [_load_metadata] returns is a rectangular table whose
    header is the descriptive columns followed by the request, and every row
    of it is of the requested species. *)
Theorem loaded_table_shape (fs : node) (filename : path) (species : string)
    (antibiotics : string + list string) (policy : string) (t out : DataFrame) :
  pd_read_csv fs filename ["-"] = OK t →
  NoDup (columns t) →
  _load_metadata fs filename species antibiotics None policy = OK out →
  columns out = _metadata_columns ++ as_list antibiotics ∧
  ∀ r, r ∈ rows out →
    length r = length (columns out) ∧ r !! 2 = Some (Str species).
Proof.
  intros Hread Hnd (ent & Hent & Hpol)%load_metadata_steps.
  apply handle_missing_values_rows in Hpol as [Hcols Hrows].
  unfold entering_policy in Hent. rewrite Hread in Hent. cbn [mbind result_bind] in Hent.
  apply bind_OK in Hent as (q & Hq & (p & Hp & [= <-])%bind_OK).
  pose proof (query_species_columns _ _ _ Hq) as Hqc.
  apply query_species_rows in Hq as (i & ps & Hpos & Hq).
  assert (Hpc : columns p = _metadata_columns ++ as_list antibiotics).
  { apply (getitem_columns q); [by rewrite Hqc|done]. }
  split; [by rewrite Hcols|].
  intros r Hr. rewrite Hrows in Hr. clear Hrows.
  apply list_elem_of_In, filter_In in Hr as [Hr _]. apply list_elem_of_In in Hr.
  rewrite Hcols, Hpc. clear Hcols Hpc.
  apply getitem_OK in Hp as [Hall ->]. cbn [rows] in Hr. rewrite Hqc in *.
  apply list_elem_of_fmap in Hr as (r0 & -> & Hr0).
  destruct (Hq r0 Hr0) as [_ Hsp].
  rewrite length_fmap. split; [by apply selected_length|].
  apply Forall_app in Hall as [HM _]. unfold _metadata_columns in HM |- *.
  apply Forall_cons in HM as [(ic & Hic)%list_elem_of_lookup_1 HM].
  apply Forall_cons in HM as [(ib & Hib)%list_elem_of_lookup_1 HM].
  assert (i ∈ positions "species" (columns t)) as His by (rewrite Hpos; left).
  apply elem_of_positions in His.
  cbn [app]. rewrite !fmap_cons. cbn [concat]. unfold flip at 1 2 3.
  rewrite (positions_unique _ Hnd ic "code") by done.
  rewrite (positions_unique _ Hnd ib "bruker_organism_best_match") by done.
  rewrite (positions_unique _ Hnd i "species") by done.
  cbn [app]. rewrite !fmap_cons. cbn [lookup list_lookup]. by rewrite Hsp.
Qed.

(** X11 on the sample table under [keep]. *)
Lemma loaded_table_shape_witness :
  ∃ out,
    _load_metadata Sample.root Sample.id_file "Sa" (inl "Cipro") None "keep" = OK out ∧
    length (rows out) = 3 ∧
    columns out = _metadata_columns ++ ["Cipro"] ∧
    ∀ r, r ∈ rows out →
      length r = length (columns out) ∧ r !! 2 = Some (Str "Sa").
Proof.
  eexists. split; [vm_compute; reflexivity|]. split; [reflexivity|].
  eapply (loaded_table_shape Sample.root Sample.id_file "Sa" (inl "Cipro") "keep").
  - vm_compute. reflexivity.
  - by_compute.
  - vm_compute. reflexivity.
Defined.

(** ** The dataset entity, continued *)

Lemma filter_fmap_length {A B} (p : B → bool) (f : A → B) (l : list A) :
  length (List.filter p (f <$> l)) = length (List.filter (λ x, p (f x)) l).
Proof.
  induction l as [|x l IH]; [done|]. cbn. destruct (p (f x)); cbn; by rewrite IH.
Qed.

Lemma isna_sum0_selected (df : DataFrame) (idx : list nat) :
  isna_sum0 {| columns := (λ i, default "" (columns df !! i)) <$> idx;
               rows := (λ r : list cell, at_pos r <$> idx) <$> rows df |}
  = (λ i, (default "" (columns df !! i),
           length (List.filter (λ r, isna (at_pos r i)) (rows df)))) <$> idx.
Proof.
  unfold isna_sum0. cbn [columns rows]. rewrite imap_fmap.
  rewrite <- (imap_const _ idx). apply imap_ext. intros j i Hj. cbn.
  f_equal. rewrite filter_fmap_length. f_equal. apply filter_ext. intros r.
  unfold at_pos at 1. by rewrite list_lookup_fmap, Hj.
Qed.

Lemma label_columns_present (df : DataFrame) :
  Forall (λ c, c ∈ columns df) (label_columns df).
Proof.
  apply Forall_forall. intros c Hc.
  apply list_elem_of_In, filter_In in Hc as [Hc _]. by apply list_elem_of_In.
Qed.

Lemma counts_by_label (df : DataFrame) (labels : list string) :
  NoDup (columns df) → Forall (λ c, c ∈ columns df) labels →
  (λ i, (default "" (columns df !! i),
         length (List.filter (λ r, isna (at_pos r i)) (rows df))))
    <$> concat (flip positions (columns df) <$> labels)
  = (λ c, (c, missing_in df c)) <$> labels.
Proof.
  intros Hnd Hall. induction Hall as [|c labels Hc _ IH]; [done|].
  rewrite !fmap_cons. cbn [concat]. rewrite fmap_app, IH.
  apply list_elem_of_lookup_1 in Hc as [i Hi].
  unfold flip at 1. unfold missing_in, cells_of.
  rewrite (positions_unique _ Hnd i c Hi). cbn. rewrite Hi. cbn.
  do 3 f_equal. apply filter_ext. intros r. by rewrite orb_false_r.
Qed.

Lemma n_label_avail_OK (d : DRIAMSDataset.t) :
  DRIAMSDataset.n_label_avail d =
    OK ((λ i, (default "" (columns (DRIAMSDataset.y d) !! i),
               length (List.filter (λ r, isna (at_pos r i))
                         (rows (DRIAMSDataset.y d)))))
          <$> concat (flip positions (columns (DRIAMSDataset.y d))
                        <$> label_columns (DRIAMSDataset.y d))).
Proof.
  unfold DRIAMSDataset.n_label_avail. fold (label_columns (DRIAMSDataset.y d)).
  unfold getitem.
  rewrite (get_indexer_total _ _ (label_columns_present (DRIAMSDataset.y d))).
  cbn [mbind result_bind]. by rewrite isna_sum0_selected.
Qed.

Lemma n_label_avail_NoDup (d : DRIAMSDataset.t) :
  NoDup (columns (DRIAMSDataset.y d)) →
  DRIAMSDataset.n_label_avail d =
    OK ((λ c, (c, missing_in (DRIAMSDataset.y d) c))
          <$> label_columns (DRIAMSDataset.y d)).
Proof.
  intros Hnd. rewrite n_label_avail_OK.
  by rewrite (counts_by_label _ _ Hnd (label_columns_present _)).
Qed.

(** X12.  The per-label counts of a dataset never fail, whatever the
    table.  When the labels of the table are pairwise distinct, there is one
    entry per label column, in header order, and its count is the number of
    rows whose value under that label is missing (so the property named
    [n_label_avail] counts the missing values, not the available ones); no
    count exceeds the number of samples. *)
Theorem n_label_avail_counts_missing (d : DRIAMSDataset.t) :
  ∃ counts,
    DRIAMSDataset.n_label_avail d = OK counts ∧
    (NoDup (columns (DRIAMSDataset.y d)) →
       counts = (λ c, (c, missing_in (DRIAMSDataset.y d) c))
                  <$> label_columns (DRIAMSDataset.y d) ∧
       Forall (λ p, p.2 ≤ DRIAMSDataset.n_samples d) counts).
Proof.
  rewrite n_label_avail_OK. eexists. split; [done|]. intros Hnd.
  rewrite (counts_by_label _ _ Hnd (label_columns_present _)). split; [done|].
  apply Forall_fmap, Forall_forall. intros c _. cbn.
  unfold missing_in, DRIAMSDataset.n_samples, shape0. apply List.filter_length_le.
Qed.

Lemma filter_all_false {A} (p : A → bool) (l : list A) :
  (∀ x, In x l → p x = false) → List.filter p l = [].
Proof.
  induction l as [|x l IH]; [done|]. intros H. cbn.
  rewrite (H x) by by left. apply IH. intros y Hy. apply H. by right.
Qed.

Lemma label_columns_of_request (A : list string) :
  NoDup (_metadata_columns ++ A) →
  List.filter (λ col, bool_decide (col ∉ _metadata_columns)) (_metadata_columns ++ A)
  = A.
Proof.
  intros Hnd. apply NoDup_app in Hnd as (_ & Hdisj & _).
  rewrite List.filter_app.
  assert (List.filter (λ col, bool_decide (col ∉ _metadata_columns))
            _metadata_columns = []) as -> by by vm_compute.
  cbn [app]. induction A as [|a A IH]; [done|]. cbn [List.filter].
  rewrite bool_decide_eq_true_2.
  - f_equal. apply IH. intros x Hx ?. apply (Hdisj x Hx). by right.
  - intros Ha. apply (Hdisj a Ha). left.
Qed.

(** X13.  A table loaded under [remove_if_any_missing] has no missing label
    left: for a request of pairwise distinct label columns (on a table with
    pairwise distinct labels and an encoder, if any, that keeps the header),
    the per-label counts of any dataset built on the returned table are all
    zero, one entry per requested antibiotic. *)
Theorem any_missing_leaves_none (fs : node) (filename : path) (species : string)
    (antibiotics : string + list string) (encoder : option Encoder)
    (t out : DataFrame) (X : list MaldiTofSpectrum) :
  pd_read_csv fs filename ["-"] = OK t →
  NoDup (columns t) →
  NoDup (_metadata_columns ++ as_list antibiotics) →
  (∀ e, encoder = Some e → keeps_header e) →
  _load_metadata fs filename species antibiotics encoder "remove_if_any_missing"
    = OK out →
  DRIAMSDataset.n_label_avail {| DRIAMSDataset.X := X; DRIAMSDataset.y := out |}
    = OK ((λ c, (c, 0)) <$> as_list antibiotics).
Proof.
  intros Hread Hnd HndA Henc (ent & Hent & Hpol)%load_metadata_steps.
  pose proof (entering_policy_columns _ _ _ _ _ _ _ Hread Hnd Henc Hent) as Hcols.
  apply any_missing_spec in Hpol as ->.
  rewrite n_label_avail_NoDup by (cbn; by rewrite Hcols).
  unfold label_columns. cbn [DRIAMSDataset.y columns].
  rewrite Hcols, (label_columns_of_request _ HndA). f_equal.
  apply list_fmap_ext. intros _ c Hc%list_elem_of_lookup_2. f_equal.
  unfold missing_in. cbn [columns rows].
  rewrite filter_all_false; [done|].
  intros r [_ Hr]%filter_In.
  apply not_true_iff_false. intros (c' & Hc' & Hna)%existsb_exists.
  apply list_elem_of_In in Hc'. rewrite <- Hcols in Hc'.
  apply (proj1 (complete_true _ _ _) Hr c c' Hc Hc'). by destruct c'.
Qed.

(** X13 on the sample table encoded by [DRIAMSLabelEncoder]. *)
Lemma any_missing_leaves_none_witness :
  DRIAMSDataset.n_label_avail
    {| DRIAMSDataset.X := [];
       DRIAMSDataset.y := {| columns := Sample.header;
                             rows := [[Str "A1"; Str "MALDI"; Str "Sa"; Num 0]] |} |}
  = OK ((λ c, (c, 0)) <$> as_list (inl "Cipro")).
Proof.
  eapply (any_missing_leaves_none Sample.root Sample.id_file "Sa" (inl "Cipro")
            (Some (LabelEncoder.as_encoder DRIAMSLabelEncoder))).
  - vm_compute. reflexivity.
  - by_compute.
  - by_compute.
  - intros e [= <-] df df' [= <-]. reflexivity.
  - vm_compute. reflexivity.
Defined.

(** ** The loader, continued *)

(** X14 at the sample site. *)
Lemma load_driams_dataset_aligned_witness :
  ∃ spectra metadata,
    _load_metadata Sample.root (id_file [] "DRIAMS-A" "2015") "Sa" (inl "Cipro")
      None "remove_if_any_missing" = OK metadata ∧
    length spectra = shape0 metadata ∧
    ∀ j r, rows metadata !! j = Some r →
      ∃ s, spectra !! j = Some s ∧
           read_spectrum Sample.root
             (spectrum_file [] "DRIAMS-A" "2015" false (at_pos r 0)) = OK (values s).
Proof.
  do 2 eexists.
  eapply (load_driams_dataset_aligned Sample.root [] "DRIAMS-A" "2015" "Sa"
            (inl "Cipro") None "remove_if_any_missing" false).
  - vm_compute. reflexivity.
  - vm_compute. reflexivity.
Defined.

Lemma load_spectra_OK fs root site year load_raw (metadata : DataFrame) (i : nat)
    (spectra : list MaldiTofSpectrum) :
  comprehension
    (λ c, Build_MaldiTofSpectrum <$>
            read_spectrum fs (spectrum_file root site year load_raw c))
    (flip at_pos i <$> rows metadata) = OK spectra ↔
  Forall2 (λ r s, read_spectrum fs (spectrum_file root site year load_raw (at_pos r i))
                  = OK (values s)) (rows metadata) spectra.
Proof.
  rewrite comprehension_OK, Forall2_fmap_l.
  split; intros H; (eapply Forall2_impl; [exact H|]); intros r s; unfold flip; cbn.
  - by intros (v & -> & ->)%fmap_OK.
  - intros ->. by destruct s.
Qed.

(** X15.  When the table of [_load_metadata] has one [code] column, the
    call succeeds exactly when the spectrum file of every row's code can be
    read; one file that cannot be read makes the whole call fail. *)
Theorem load_succeeds_iff (fs : node) (root : path) (site year species : string)
    (antibiotics : string + list string) (encoder : option Encoder)
    (policy : string) (load_raw : bool) (metadata : DataFrame) (i : nat) :
  _load_metadata fs (id_file root site year) species antibiotics encoder policy
    = OK metadata →
  positions "code" (columns metadata) = [i] →
  (∃ spectra,
     load_driams_dataset fs root site year species antibiotics encoder policy
       load_raw = OK (spectra, metadata)) ↔
  ∀ r, r ∈ rows metadata →
    ∃ v, read_spectrum fs (spectrum_file root site year load_raw (at_pos r i)) = OK v.
Proof.
  intros Hmd Hcode. rewrite load_driams_dataset_eq, Hmd. cbn [mbind result_bind].
  unfold attr_code. rewrite Hcode. cbn [mbind result_bind]. split.
  - intros (spectra & (sp & Hsp & [= <-])%bind_OK) r (j & Hj)%list_elem_of_lookup_1.
    apply load_spectra_OK in Hsp.
    destruct (Forall2_lookup_l _ _ _ j r Hsp Hj) as (s & _ & Hs). eauto.
  - intros Hall.
    assert (∃ spectra, Forall2 (λ r s,
        read_spectrum fs (spectrum_file root site year load_raw (at_pos r i))
        = OK (values s)) (rows metadata) spectra) as [spectra Hsp].
    { induction (rows metadata) as [|r rs IH]; [by exists []|].
      destruct (Hall r) as [v Hv]; [left|].
      destruct IH as [sp Hsp]; [intros r' ?; apply Hall; by right|].
      exists ({| values := v |} :: sp). by constructor. }
    exists spectra. apply load_spectra_OK in Hsp. by rewrite Hsp.
Qed.

(** X15 at the sample site. *)
Lemma load_succeeds_iff_witness :
  (∃ spectra,
     load_driams_dataset Sample.root [] "DRIAMS-A" "2015" "Sa" (inl "Cipro") None
       "remove_if_any_missing" false
     = OK (spectra,
           {| columns := Sample.header;
              rows := [[Str "A1"; Str "MALDI"; Str "Sa"; Str "S"];
                       [Str "A2"; Str "MALDI"; Str "Sa"; Str "R(1)"]] |})) ↔
  ∀ r, r ∈ [[Str "A1"; Str "MALDI"; Str "Sa"; Str "S"];
            [Str "A2"; Str "MALDI"; Str "Sa"; Str "R(1)"]] →
    ∃ v, read_spectrum Sample.root
           (spectrum_file [] "DRIAMS-A" "2015" false (at_pos r 0)) = OK v.
Proof.
  apply (load_succeeds_iff Sample.root [] "DRIAMS-A" "2015" "Sa" (inl "Cipro") None
           "remove_if_any_missing" false
           {| columns := Sample.header;
              rows := [[Str "A1"; Str "MALDI"; Str "Sa"; Str "S"];
                       [Str "A2"; Str "MALDI"; Str "Sa"; Str "R(1)"]] |} 0).
  - vm_compute. reflexivity.
  - vm_compute. reflexivity.
Defined.

(** X16.  The flag [load_raw] selects the spectra area and nothing else: an
    error of [_load_metadata] is raised unchanged whatever the flag, before
    any spectrum is read, and the table of a successful call is the table of
    [_load_metadata] whatever the flag. *)
Theorem load_raw_selects_spectra_only (fs : node) (root : path)
    (site year species : string) (antibiotics : string + list string)
    (encoder : option Encoder) (policy : string) :
  (∀ e, _load_metadata fs (id_file root site year) species antibiotics encoder
          policy = Raise e →
     ∀ load_raw, load_driams_dataset fs root site year species antibiotics encoder
                   policy load_raw = Raise e) ∧
  (∀ load_raw spectra metadata,
     load_driams_dataset fs root site year species antibiotics encoder policy
       load_raw = OK (spectra, metadata) →
     _load_metadata fs (id_file root site year) species antibiotics encoder policy
       = OK metadata).
Proof.
  split.
  - intros e He load_raw. by rewrite load_driams_dataset_eq, He.
  - intros load_raw spectra metadata. rewrite load_driams_dataset_eq.
    intros (md & Hmd & (codes & _ & (sp & _ & [= _ <-])%bind_OK)%bind_OK)%bind_OK.
    done.
Qed.

(** X17.  The pair that a successful call returns always passes the
    constructor of the dataset entity when the table has one [code] column:
    the entity holds the spectra and the table, and its sample count is the
    number of spectra. *)
Theorem loaded_pair_builds_dataset (fs : node) (root : path)
    (site year species : string) (antibiotics : string + list string)
    (encoder : option Encoder) (policy : string) (load_raw : bool)
    (spectra : list MaldiTofSpectrum) (metadata : DataFrame) (i : nat) :
  load_driams_dataset fs root site year species antibiotics encoder policy load_raw
    = OK (spectra, metadata) →
  positions "code" (columns metadata) = [i] →
  DRIAMSDataset.__init__ spectra metadata
    = OK {| DRIAMSDataset.X := spectra; DRIAMSDataset.y := metadata |} ∧
  DRIAMSDataset.n_samples
    {| DRIAMSDataset.X := spectra; DRIAMSDataset.y := metadata |} = length spectra.
Proof.
  rewrite load_driams_dataset_eq.
  intros (md & Hmd & (codes & Hcodes & (sp & Hsp & [= <- <-])%bind_OK)%bind_OK)%bind_OK
    Hcode.
  unfold attr_code in Hcodes. rewrite Hcode in Hcodes. injection Hcodes as <-.
  apply comprehension_length in Hsp. rewrite length_fmap in Hsp.
  unfold DRIAMSDataset.__init__, DRIAMSDataset.n_samples, shape0. cbn.
  by rewrite bool_decide_eq_true_2.
Qed.

(** X17 at the sample site. *)
Lemma loaded_pair_builds_dataset_witness :
  ∃ spectra metadata,
    length spectra = 2 ∧
    DRIAMSDataset.__init__ spectra metadata
      = OK {| DRIAMSDataset.X := spectra; DRIAMSDataset.y := metadata |} ∧
    DRIAMSDataset.n_samples
      {| DRIAMSDataset.X := spectra; DRIAMSDataset.y := metadata |} = length spectra.
Proof.
  exists [ {| values := [[2000; 7]; [2003; 9]]%Z |}; {| values := [[2000; 1]]%Z |} ].
  eexists. split; [reflexivity|].
  eapply (loaded_pair_builds_dataset Sample.root [] "DRIAMS-A" "2015" "Sa"
            (inl "Cipro") None "remove_if_any_missing" false).
  - vm_compute. reflexivity.
  - vm_compute. reflexivity.
Defined.

(** ** From the available antibiotics to a request *)

Lemma pd_read_csv_columns (fs : node) (p : path) (na1 na2 : list string)
    (df : DataFrame) :
  pd_read_csv fs p na1 = OK df →
  ∃ df', pd_read_csv fs p na2 = OK df' ∧ columns df' = columns df.
Proof.
  unfold pd_read_csv. destruct (resolve fs p) as [[f|]|]; [|done..].
  destruct (csv f) as [[header body]|]; [|done]. intros [= <-]. eauto.
Qed.

Lemma comprehension_if_first_isupper_OK (ucd : unicode_data) (cols ys : list string) :
  comprehension_if (first_isupper ucd) cols = OK ys →
  ys = List.filter (starts_upper ucd) cols.
Proof.
  revert ys. induction cols as [|c cols IH]; intros ys; [by intros [= <-]|].
  cbn [comprehension_if].
  intros (b & Hb & (ys' & Hys & [= <-])%bind_OK)%bind_OK.
  rewrite (IH ys' Hys). destruct c; [done|]. injection Hb as <-. done.
Qed.

Lemma handle_missing_values_total (metadata : DataFrame) (A : list string)
    (policy : string) :
  Forall (λ a, a ∈ columns metadata) A →
  ∃ out, handle_missing_values metadata A policy = OK out ∧
         columns out = columns metadata.
Proof.
  intros Hall. unfold handle_missing_values.
  repeat case_decide; rewrite ?masked_branch, ?(get_indexer_total _ _ Hall);
    eexists; split; done.
Qed.

(** X18.  What the explorer lists as available antibiotics is a request
    that [_load_metadata] accepts for the same table: on a table with
    pairwise distinct labels that has the descriptive columns, the listed
    names are pairwise distinct and none is a descriptive column, and loading
    them without encoder under any of the three policies returns a table
    whose header is the descriptive columns followed by the listed names. *)
Theorem available_antibiotics_are_a_request (fs : node) (ucd : unicode_data)
    (root : path) (site year species policy : string) (df : DataFrame)
    (l : list string) :
  pd_read_csv fs (id_file root site year) [] = OK df →
  NoDup (columns df) →
  Forall (λ c, c ∈ columns df) _metadata_columns →
  policy ∈ ["remove_if_all_missing"; "remove_if_any_missing"; "keep"] →
  DRIAMSDatasetExplorer._get_available_antibiotics fs ucd root site year = OK l →
  NoDup (_metadata_columns ++ l) ∧
  ∃ out,
    _load_metadata fs (id_file root site year) species (inr l) None policy = OK out ∧
    columns out = _metadata_columns ++ l.
Proof.
  intros Hread Hnd HM Hpol Hl.
  unfold DRIAMSDatasetExplorer._get_available_antibiotics in Hl.
  fold (id_file root site year) in Hl. rewrite Hread in Hl.
  cbn [mbind result_bind] in Hl.
  apply bind_OK in Hl as (ys & ->%comprehension_if_first_isupper_OK & [= <-]).
  set (l := merge_sort String.le _).
  assert (Hl : ∀ a, a ∈ l → a ∈ columns df ∧ starts_upper ucd a = true).
  { intros a Ha. unfold l in Ha. rewrite merge_sort_Permutation in Ha.
    apply list_elem_of_In, filter_In in Ha as [[Ha ?]%filter_In _].
    by apply list_elem_of_In in Ha. }
  assert (HndA : NoDup (_metadata_columns ++ l)).
  { apply NoDup_app. split; [by_compute|]. split.
    - intros x Hx [_ Hup]%Hl. unfold _metadata_columns in Hx.
      repeat (apply elem_of_cons in Hx as [->|Hx]; [done|]).
      by apply elem_of_nil in Hx.
    - unfold l. rewrite merge_sort_Permutation.
      by do 2 apply NoDup_ListNoDup, List.NoDup_filter, NoDup_ListNoDup. }
  split; [done|].
  destruct (pd_read_csv_columns _ _ _ ["-"] _ Hread) as (t & Ht & Htc).
  assert (Hkeys : Forall (λ k, k ∈ columns t) (_metadata_columns ++ l)).
  { rewrite Htc. apply Forall_app. split; [done|].
    apply Forall_forall. intros a Ha. by apply Hl. }
  destruct (query_species_OK t species) as (q & Hq & Hqc).
  { rewrite Htc. rewrite Forall_forall in HM. apply HM. by_compute. }
  assert (∃ p, getitem q (_metadata_columns ++ l) = OK p ∧
               columns p = _metadata_columns ++ l) as (p & Hp & Hpc).
  { unfold getitem. rewrite Hqc, (get_indexer_total _ _ Hkeys).
    eexists. split; [done|]. cbn [columns].
    apply selected_labels; [by rewrite Htc|done]. }
  destruct (handle_missing_values_total p l policy) as (out & Hout & Hoc).
  { rewrite Hpc. apply Forall_forall. intros a Ha. apply elem_of_app. by right. }
  exists out. split; [|by rewrite Hoc].
  rewrite _load_metadata_eq. rewrite bool_decide_eq_true_2 by done.
  unfold entering_policy. cbn [as_list py_assert mbind result_bind].
  rewrite Ht. cbn [mbind result_bind]. rewrite Hq. cbn [mbind result_bind].
  rewrite Hp. done.
Qed.

(** X18 at the site whose table of 2016 lists [Ciprofloxacin]. *)
Lemma available_antibiotics_are_a_request_witness :
  NoDup (_metadata_columns ++ ["Ciprofloxacin"]) ∧
  ∃ out,
    _load_metadata Sample.root_2016 (id_file [] "DRIAMS-A" "2016") "Sa"
      (inr ["Ciprofloxacin"]) None "remove_if_all_missing" = OK out ∧
    columns out = _metadata_columns ++ ["Ciprofloxacin"].
Proof.
  eapply (available_antibiotics_are_a_request Sample.root_2016 Sample.ucd [] "DRIAMS-A" "2016"
            "Sa" "remove_if_all_missing").
  - vm_compute. reflexivity.
  - by_compute.
  - by_compute.
  - by_compute.
  - vm_compute. reflexivity.
Defined.

(** ** A single antibiotic, and the dash *)

(** X19.  For a single requested antibiotic, given as a bare name, the two
    removing policies coincide: on a table with pairwise distinct labels, for
    a name that is no descriptive column and an encoder, if any, that keeps
    the header, [remove_if_all_missing] and [remove_if_any_missing] give the
    same result (the same table, or the same error). *)
Theorem single_antibiotic_policies_agree (fs : node) (filename : path)
    (species a : string) (encoder : option Encoder) (t : DataFrame) :
  pd_read_csv fs filename ["-"] = OK t →
  NoDup (columns t) →
  a ∉ _metadata_columns →
  (∀ e, encoder = Some e → keeps_header e) →
  _load_metadata fs filename species (inl a) encoder "remove_if_all_missing"
  = _load_metadata fs filename species (inl a) encoder "remove_if_any_missing".
Proof.
  intros Hread Hnd Ha Henc. rewrite !_load_metadata_eq. cbn [as_list].
  rewrite !bool_decide_eq_true_2 by by_compute. cbn [py_assert mbind result_bind].
  destruct (entering_policy fs filename species [a] encoder) as [ent|e] eqn:Hent;
    [|done].
  cbn [mbind result_bind].
  assert (HndA : NoDup (_metadata_columns ++ [a])).
  { apply NoDup_app. split; [by_compute|]. split; [|apply NoDup_singleton].
    by intros x Hx ->%list_elem_of_singleton. }
  pose proof (entering_policy_columns _ _ _ _ _ _ _ Hread Hnd Henc Hent) as Hcols.
  assert (Hall : Forall (λ x, x ∈ columns ent) [a]).
  { rewrite Hcols. apply Forall_singleton, elem_of_app. right. left. }
  assert (Hent_nd : NoDup (columns ent)) by by rewrite Hcols.
  rewrite (all_missing_spec ent [a] Hent_nd Hall).
  destruct (handle_missing_values_total ent [a] "remove_if_any_missing" Hall)
    as (out & Hout & _).
  rewrite Hout. apply any_missing_spec in Hout as ->. do 2 f_equal.
  apply filter_ext. intros r. unfold has_value, complete, cells_of.
  apply Forall_singleton, list_elem_of_lookup_1 in Hall as [i Hi].
  cbn [existsb forallb]. rewrite (positions_unique _ Hent_nd i a Hi). cbn.
  by destruct (isna (at_pos r i)).
Qed.

(** X19 on the sample table. *)
Lemma single_antibiotic_policies_agree_witness :
  _load_metadata Sample.root Sample.id_file "Sa" (inl "Cipro") None
    "remove_if_all_missing"
  = _load_metadata Sample.root Sample.id_file "Sa" (inl "Cipro") None
      "remove_if_any_missing".
Proof.
  eapply (single_antibiotic_policies_agree Sample.root Sample.id_file "Sa" "Cipro").
  - vm_compute. reflexivity.
  - by_compute.
  - by_compute.
  - intros e [=].
Defined.

Lemma parse_token_dash (s : string) : parse_token ["-"] s ≠ Str "-".
Proof.
  unfold parse_token. case_decide as H; [done|]. intros [= ->]. apply H. left.
Qed.

(** X20.  The table is read with the dash as a missing-value marker, so
    without an encoder no cell of the table that [_load_metadata] returns is
    the token [-]. *)
Theorem dash_never_loaded (fs : node) (filename : path) (species : string)
    (antibiotics : string + list string) (policy : string) (out : DataFrame) :
  _load_metadata fs filename species antibiotics None policy = OK out →
  ∀ r c, r ∈ rows out → c ∈ r → c ≠ Str "-".
Proof.
  intros (ent & Hent & Hpol)%load_metadata_steps r c Hr Hc.
  apply handle_missing_values_rows in Hpol as [_ Hrows]. rewrite Hrows in Hr.
  apply list_elem_of_In, filter_In in Hr as [Hr _]. apply list_elem_of_In in Hr.
  unfold entering_policy in Hent.
  apply bind_OK in Hent as (t & Ht & (q & Hq & (p & Hp & [= <-])%bind_OK)%bind_OK).
  apply getitem_OK in Hp as [_ ->]. cbn [rows] in Hr.
  apply list_elem_of_fmap in Hr as (r0 & -> & Hr0).
  apply list_elem_of_fmap in Hc as (i & -> & _).
  apply query_species_rows in Hq as (isp & ps & _ & Hq).
  destruct (Hq r0 Hr0) as [Hr0t _].
  unfold pd_read_csv in Ht. destruct (resolve fs filename) as [[f|]|]; [|done..].
  destruct (csv f) as [[header body]|]; [|done]. injection Ht as <-.
  cbn [rows] in Hr0t. apply list_elem_of_fmap in Hr0t as (tokens & -> & _).
  unfold at_pos. rewrite list_lookup_fmap.
  destruct (tokens !! i) as [s|]; [apply parse_token_dash | done].
Qed.

(** X20 on the sample table, whose row [A3] holds a dash. *)
Lemma dash_never_loaded_witness :
  ∃ out,
    _load_metadata Sample.root Sample.id_file "Sa" (inl "Cipro") None "keep" = OK out ∧
    [Str "A3"; Str "MALDI"; Str "Sa"; NaN] ∈ rows out ∧
    ∀ r c, r ∈ rows out → c ∈ r → c ≠ Str "-".
Proof.
  eexists. split; [vm_compute; reflexivity|]. split; [by_compute|].
  eapply (dash_never_loaded Sample.root Sample.id_file "Sa" (inl "Cipro") "keep").
  vm_compute. reflexivity.
Defined.
